(** * slop-grapher: the schema detection and ingestion engine of [reader.py]

    A shallow embedding of [src/reader.py]. Python exceptions are an error
    monad, the files the program writes are an explicit store threaded
    through the calls, and the pandas calls act on a small table type. The
    model comes first, then the properties of detection, of the loader, of
    change detection, of the normalizers and of a full ingestion run. *)

From Stdlib Require Import ZArith String Ascii.
From stdpp Require Import base list strings gmap sorting.

#[local] Set Warnings "-clear-no-such-hyp".

(** ** Python exceptions *)

(** The classes that [reader.py] and the library calls it makes can raise.
    All of them derive from [Exception], which is what the [except Exception]
    handlers of the source catch. [OtherError] names any further class. *)
Inductive exn : Type :=
  | KeyError
  | ValueError
  | IndexError
  | TypeError
  | AttributeError
  | FileNotFoundError
  | InvalidIndexError
  | OtherError (class_name : string).

#[global] Instance exn_eq_dec : EqDecision exn.
Proof. solve_decision. Defined.

Inductive exc (A : Type) : Type :=
  | Ok (a : A)
  | Raise (e : exn).
Arguments Ok {A} a.
Arguments Raise {A} e.

#[global] Instance exc_eq_dec `{EqDecision A} : EqDecision (exc A).
Proof. solve_decision. Defined.

#[global] Instance exc_ret : MRet exc := λ A a, Ok a.
#[global] Instance exc_bind : MBind exc := λ A B f m,
  match m with
  | Ok a => f a
  | Raise e => Raise e
  end.
#[global] Instance exc_fmap : FMap exc := λ A B f m,
  match m with
  | Ok a => Ok (f a)
  | Raise e => Raise e
  end.

(** [[f(x) for x in l]] where [f] may raise: the first failure wins. *)
Fixpoint exc_mapM {A B} (f : A → exc B) (l : list A) : exc (list B) :=
  match l with
  | [] => Ok []
  | x :: l' => y ← f x; ys ← exc_mapM f l'; Ok (y :: ys)
  end.

(** ** Python strings and paths *)

(** A [str] is a Rocq string whose characters are read as the code points
    0..255; code points above 255 do not occur in the model. *)
Module Py.

Definition chr (n : N) : ascii := ascii_of_N n.
Definition ord (c : ascii) : N := N_of_ascii c.

Definition LF : ascii := chr 10.
Definition CR : ascii := chr 13.

(** The line boundaries of [str.splitlines] below code point 256. *)
Definition is_line_boundary (c : ascii) : bool :=
  bool_decide (ord c ∈ [10; 11; 12; 13; 28; 29; 30; 133]%N).

(** [str.isspace] on one character, below code point 256. *)
Definition isspace (c : ascii) : bool :=
  bool_decide (ord c ∈ [9; 10; 11; 12; 13; 28; 29; 30; 31; 32; 133; 160]%N).

(** [str.splitlines]: [line] is the line read so far, [after_cr] says that
    the previous character was a carriage return, so that a line feed right
    after it belongs to the same boundary. *)
Fixpoint splitlines_from (after_cr : bool) (line s : string) : list string :=
  match s with
  | EmptyString => if decide (line = "") then [] else [line]
  | String c s' =>
      if after_cr && bool_decide (c = LF) then splitlines_from false "" s'
      else if is_line_boundary c
      then line :: splitlines_from (bool_decide (c = CR)) "" s'
      else splitlines_from false (line +:+ String c "") s'
  end.
Definition splitlines (s : string) : list string := splitlines_from false "" s.

Fixpoint lstrip (s : string) : string :=
  match s with
  | EmptyString => ""
  | String c s' => if isspace c then lstrip s' else s
  end.
Definition rstrip (s : string) : string := String.rev (lstrip (String.rev s)).
Definition strip (s : string) : string := rstrip (lstrip s).

(** No character of [s] is a line boundary. *)
Fixpoint no_line_boundary (s : string) : bool :=
  match s with
  | EmptyString => true
  | String c s' => negb (is_line_boundary c) && no_line_boundary s'
  end.

(** A name that a log line carries unchanged: not empty, on one line, and
    without white space at either end. *)
Definition plain_name (s : string) : Prop :=
  s ≠ "" ∧ no_line_boundary s = true ∧ strip s = s.

(** [sep.join(l)] *)
Fixpoint join (sep : string) (l : list string) : string :=
  match l with
  | [] => ""
  | [x] => x
  | x :: l' => x +:+ sep +:+ join sep l'
  end.

(** [sub in s] *)
Fixpoint contains (sub s : string) : bool :=
  String.prefix sub s ||
  match s with
  | EmptyString => false
  | String _ s' => contains sub s'
  end.

(** [s.rfind(c)] for a one-character [c]: the last index, or -1. *)
Fixpoint rfind_from (c : ascii) (s : string) (i : nat) : option nat :=
  match s with
  | EmptyString => None
  | String a s' =>
      match rfind_from c s' (S i) with
      | Some j => Some j
      | None => if decide (a = c) then Some i else None
      end
  end.
Definition rfind (c : ascii) (s : string) : Z :=
  match rfind_from c s 0 with
  | Some j => Z.of_nat j
  | None => -1
  end.

(** [s[i:j]] and [s[i:]] for indices within the string. *)
Definition slice (i j : Z) (s : string) : string :=
  String.substring (Z.to_nat i) (Z.to_nat (j - i)) s.
Definition slice_from (i : Z) (s : string) : string :=
  String.substring (Z.to_nat i) (String.length s - Z.to_nat i) s.

(** The loop of [posixpath.splitext] that skips the leading dots of the file
    name: it finds a character other than a dot before the last dot. *)
Fixpoint has_non_dot (s : string) : bool :=
  match s with
  | EmptyString => false
  | String c s' => if decide (c = "."%char) then has_non_dot s' else true
  end.

(** [os.path.splitext] on a POSIX path. *)
Definition splitext (p : string) : string * string :=
  let sepIndex := rfind "/"%char p in
  let dotIndex := rfind "."%char p in
  if bool_decide (sepIndex < dotIndex)%Z
  then if has_non_dot (slice (sepIndex + 1) dotIndex p)
       then (slice 0 dotIndex p, slice_from dotIndex p)
       else (p, "")
  else (p, "").

(** [Path.with_suffix] on a path whose name has an extension. *)
Definition with_suffix (suffix : string) (p : string) : string :=
  (splitext p).1 +:+ suffix.

(** A compiled pattern made of digits and literal characters. *)
Inductive pat : Type :=
  | Digit
  | Lit (c : ascii).

Definition is_digit (c : ascii) : bool :=
  bool_decide (48 ≤ ord c ∧ ord c ≤ 57)%N.

Definition pat_accepts (p : pat) (c : ascii) : bool :=
  match p with
  | Digit => is_digit c
  | Lit c' => bool_decide (c = c')
  end.

(** Matches the pattern at the start of [s] and returns what is left. *)
Fixpoint match_prefix (ps : list pat) (s : string) : option string :=
  match ps, s with
  | [], _ => Some s
  | _ :: _, EmptyString => None
  | p :: ps', String c s' =>
      if pat_accepts p c then match_prefix ps' s' else None
  end.

(** [re.compile(r"^...$").match(s)] is not [None]: the pattern matches from
    the start, and [$] accepts the end of the string or a final line feed. *)
Definition re_match (ps : list pat) (s : string) : bool :=
  match match_prefix ps s with
  | Some rest => bool_decide (rest = "" ∨ rest = String LF "")
  | None => false
  end.

End Py.

(** ** Tables *)

Module Pandas.

(** A cell of a table: a string, a number, an instant (nanoseconds since the
    epoch, the payload of [datetime64[ns]]), or the missing value (NaN, NaT
    and None alike). Numbers are carried as integers and moved unchanged.
    pandas stores a column of integers that also holds a missing value as
    [float64]: where a missing value enters such a column (a pivot with an
    absent combination, an outer join with an absent column), an integer
    beyond 2^53 in magnitude is rounded. The model does not round;
    statements about the value of a number are made for the cells that the
    conversion leaves as they are ([float_exact]). *)
Inductive cell : Type :=
  | CStr (s : string)
  | CInt (n : Z)
  | CTime (ns : Z)
  | CNaN.

#[global] Instance cell_eq_dec : EqDecision cell.
Proof. solve_decision. Defined.

(** A cell that a conversion of its column from [int64] to [float64] leaves
    as it is: any cell but an integer beyond 2^53 in magnitude. *)
Definition float_exact (c : cell) : Prop :=
  match c with
  | CInt n => (Z.abs n ≤ 2 ^ 53)%Z
  | _ => True
  end.

(** A [DataFrame]: the column labels, and the rows in order, each with its
    index label. *)
Record DataFrame : Type := mkDF {
  columns : list string;
  rows : list (cell * list cell)
}.

#[global] Instance DataFrame_eq_dec : EqDecision DataFrame.
Proof. solve_decision. Defined.

(** The values of the rows, without the index. *)
Definition values (df : DataFrame) : list (list cell) := snd <$> rows df.

(** The index labels. *)
Definition labels (df : DataFrame) : list cell := fst <$> rows df.

(** [df.empty]: some axis has length zero. *)
Definition empty (df : DataFrame) : bool :=
  bool_decide (columns df = [] ∨ rows df = []).

(** A fresh [RangeIndex] over the given rows. *)
Definition range_index (vs : list (list cell)) : list (cell * list cell) :=
  imap (λ k v, (CInt (Z.of_nat k), v)) vs.

(** The positions at which a label occurs among the columns. *)
Fixpoint positions_from (i : nat) (label : string) (cols : list string)
    : list nat :=
  match cols with
  | [] => []
  | c :: cols' =>
      if decide (c = label)
      then i :: positions_from (S i) label cols'
      else positions_from (S i) label cols'
  end.
Definition positions : string → list string → list nat := positions_from 0.

(** The position of the one column that carries [label]: [KeyError] when
    there is none; a repeated label does not select a single column and is
    rejected with [ValueError]. *)
Definition get_loc (label : string) (cols : list string) : exc nat :=
  match positions label cols with
  | [] => Raise KeyError
  | [i] => Ok i
  | _ => Raise ValueError
  end.

Definition cell_at (i : nat) (r : list cell) : cell := default CNaN (r !! i).

(** The cells of the column at position [i], top to bottom. *)
Definition column (i : nat) (df : DataFrame) : list cell :=
  cell_at i <$> values df.

(** [df[label] = series] for an existing column at position [i]: row [k]
    receives the [k]-th cell of the series. *)
Definition set_column (i : nat) (series : list cell) (df : DataFrame)
    : DataFrame :=
  {| columns := columns df;
     rows := imap (λ k r, (r.1, <[i := cell_at k series]> r.2)) (rows df) |}.

(** *** Ordering of keys *)

Definition kind (c : cell) : nat :=
  match c with
  | CStr _ => 0
  | CInt _ => 1
  | CTime _ => 2
  | CNaN => 3
  end.

(** The order in which a sort places keys: missing keys last
    ([na_position='last']), keys of one kind by their own order. Keys of
    two kinds are never compared by a sort that completes (see
    [comparable]); they are ordered by kind to make the order total. *)
Definition key_leb (a b : cell) : bool :=
  match a, b with
  | _, CNaN => true
  | CNaN, _ => false
  | CStr s, CStr t => String.leb s t
  | CInt m, CInt n => (m <=? n)%Z
  | CTime m, CTime n => (m <=? n)%Z
  | _, _ => (kind a <=? kind b)%nat
  end.

Definition key_le (a b : cell) : Prop := key_leb a b = true.

#[global] Instance key_le_dec : RelDecision key_le.
Proof. intros a b. unfold key_le. apply _. Defined.

(** The keys that are present are all of one kind; comparing a string with
    a number or an instant raises [TypeError] in Python. *)
Definition comparable (keys : list cell) : bool :=
  match filter (λ c, c ≠ CNaN) keys with
  | [] => true
  | k :: ks => forallb (λ c, (kind c =? kind k)%nat) ks
  end.

(** Rows ordered by the key in column [pos]. *)
Definition row_le (pos : nat) (r1 r2 : cell * list cell) : Prop :=
  key_le (cell_at pos r1.2) (cell_at pos r2.2).

#[global] Instance row_le_dec pos : RelDecision (row_le pos).
Proof. intros r1 r2. unfold row_le. apply _. Defined.

(** A sort by insertion: a row goes before the first row whose key is not
    below its own, so that rows with equal keys keep their order. *)
Fixpoint insert_row (pos : nat) (r : cell * list cell)
    (rs : list (cell * list cell)) : list (cell * list cell) :=
  match rs with
  | [] => [r]
  | r' :: rs' =>
      if decide (row_le pos r r') then r :: rs
      else r' :: insert_row pos r rs'
  end.

Fixpoint sort_rows (pos : nat) (rs : list (cell * list cell))
    : list (cell * list cell) :=
  match rs with
  | [] => []
  | r :: rs' => insert_row pos r (sort_rows pos rs')
  end.

(** [df.sort_values(by=label)]: ascending, missing keys last. Rows with
    equal keys keep their order, as they do under the sort of numpy on a
    short column; on a long one the default sort of pandas does not fix
    their order, and no statement below depends on it. *)
Definition sort_values (label : string) (df : DataFrame) : exc DataFrame :=
  pos ← get_loc label (columns df);
  if comparable (column pos df)
  then Ok {| columns := columns df; rows := sort_rows pos (rows df) |}
  else Raise TypeError.

(** [df.drop_duplicates()]: a row whose values were seen before is removed
    ([keep='first']); the index label plays no part. *)
Fixpoint drop_seen (seen : list (list cell)) (rs : list (cell * list cell))
    : list (cell * list cell) :=
  match rs with
  | [] => []
  | r :: rs' =>
      if decide (r.2 ∈ seen) then drop_seen seen rs'
      else r :: drop_seen (r.2 :: seen) rs'
  end.
Definition drop_duplicates (df : DataFrame) : DataFrame :=
  {| columns := columns df; rows := drop_seen [] (rows df) |}.

(** [df.reset_index(drop=True)] *)
Definition reset_index_drop (df : DataFrame) : DataFrame :=
  {| columns := columns df; rows := range_index (values df) |}.

(** [df.reset_index(names=label)]: the index becomes the first column. *)
Definition reset_index (label : string) (df : DataFrame) : exc DataFrame :=
  if decide (label ∈ columns df) then Raise ValueError
  else Ok {| columns := label :: columns df;
             rows := range_index ((λ r, r.1 :: r.2) <$> rows df) |}.

(** [df.rename(columns=mapping)]: labels without an entry stay. *)
Definition rename (mapping : gmap string string) (df : DataFrame)
    : DataFrame :=
  {| columns := (λ c, default c (mapping !! c)) <$> columns df;
     rows := rows df |}.

(** The cells of a row at the positions the mask keeps. *)
Fixpoint select (mask : list bool) (r : list cell) : list cell :=
  match mask, r with
  | true :: mask', c :: r' => c :: select mask' r'
  | false :: mask', _ :: r' => select mask' r'
  | _, _ => []
  end.

(** [df.drop(columns=ls)]: [KeyError] when a label is not a column
    ([errors='raise']). *)
Definition drop (ls : list string) (df : DataFrame) : exc DataFrame :=
  if decide (Forall (λ l, l ∈ columns df) ls)
  then let mask := (λ c, bool_decide (c ∉ ls)) <$> columns df in
       Ok {| columns := filter (λ c, c ∉ ls) (columns df);
             rows := (λ r, (r.1, select mask r.2)) <$> rows df |}
  else Raise KeyError.

(** A text cell. The model covers long-form tables whose key columns hold
    text, as the tagged exports do: any other cell in a key column is
    rejected here, although pandas also pivots on numbers and on missing
    keys. *)
Definition as_str (c : cell) : exc string :=
  match c with
  | CStr s => Ok s
  | _ => Raise TypeError
  end.

(** The distinct strings of a list, in ascending order. *)
Definition sorted_unique (l : list string) : list string :=
  merge_sort String.le (remove_dups l).

(** The value stored under the key [(t, n)], or the missing value. *)
Fixpoint lookup_entry (t n : string) (entries : list (string * string * cell))
    : cell :=
  match entries with
  | [] => CNaN
  | (t', n', v) :: entries' =>
      if decide (t' = t ∧ n' = n) then v else lookup_entry t n entries'
  end.

(** [df.pivot(index=, columns=, values=)]: one row per distinct index key
    and one column per distinct column key, both in ascending order; a key
    pair that occurs twice cannot be reshaped ([ValueError]). A combination
    that does not occur is filled with the missing value; the values are
    moved unchanged (see [float_exact] for the rounding that pandas adds
    then). *)
Definition pivot (index columns_ values_ : string) (df : DataFrame)
    : exc DataFrame :=
  i ← get_loc index (columns df);
  c ← get_loc columns_ (columns df);
  v ← get_loc values_ (columns df);
  times ← exc_mapM as_str (column i df);
  names ← exc_mapM as_str (column c df);
  let keys := zip times names in
  if decide (NoDup keys)
  then let entries := zip keys (column v df) in
       Ok {| columns := sorted_unique names;
             rows := (λ t, (CStr t, (λ n, lookup_entry t n entries)
                                      <$> sorted_unique names))
                     <$> sorted_unique times |}
  else Raise ValueError.

(** The union of the column labels of the frames, in order of first
    appearance ([sort=False]). *)
Definition union_columns (frames : list DataFrame) : list string :=
  foldl (λ acc df, acc ++ filter (λ c, c ∉ acc) (columns df)) [] frames.

(** A row laid out on the columns [cols]; absent columns are missing. *)
Definition reindex (cols : list string) (df : DataFrame)
    : list (cell * list cell) :=
  (λ r, (r.1, (λ c, match positions c (columns df) with
                    | i :: _ => cell_at i r.2
                    | [] => CNaN
                    end) <$> cols)) <$> rows df.

(** [pd.concat(frames, join='outer')]: [ValueError] on no frames. Frames
    that all carry the same labels are stacked as they are; otherwise the
    rows are laid out on the union of the labels, which needs the labels of
    every frame to be distinct ([InvalidIndexError]). A column that a frame
    lacks is filled with the missing value; the cells are moved unchanged
    (see [float_exact] for the rounding that pandas adds then). *)
Definition concat (frames : list DataFrame) : exc DataFrame :=
  match frames with
  | [] => Raise ValueError
  | df :: _ =>
      if decide (Forall (λ df', columns df' = columns df) frames)
      then Ok {| columns := columns df; rows := frames ≫= rows |}
      else if decide (Forall (λ df', NoDup (columns df')) frames)
      then let cols := union_columns frames in
           Ok {| columns := cols; rows := frames ≫= reindex cols |}
      else Raise InvalidIndexError
  end.

End Pandas.
Export Pandas.

(** ** The files the program writes, and the libraries it calls *)

(** What a file written by [to_feather] holds: a table, or nothing when the
    write raised after the file was opened. *)
Inductive feather_file : Type :=
  | Feather (df : DataFrame)
  | Truncated.

#[global] Instance feather_file_eq_dec : EqDecision feather_file.
Proof. solve_decision. Defined.

(** The text files written with [write_text], the files written with
    [to_feather], each by path, and the lines printed. *)
Record World : Type := mkWorld {
  text_files : gmap string string;
  feather_files : gmap string feather_file;
  stdout : list string
}.

(** The keyword arguments of [pd.read_csv] that the source sets. *)
Record csv_opts : Type := mkOpts {
  nrows : option nat;
  delimiter : option string;
  encoding : option string;
  quotechar : string;
  engine : option string;
  skipfooter : nat
}.

(** The library calls whose result the program only passes on: the parser
    behind [pd.read_csv] (it reads the file at a path of the current
    world), [pd.to_datetime] on a column, [os.listdir],
    [difflib.unified_diff] with the header names of the source, and the
    conversion of the columns of a table by pyarrow, which [to_feather]
    runs before it writes and which may reject a cell. *)
Class Libraries : Type := {
  csv_engine : World → string → csv_opts → exc DataFrame;
  pd_to_datetime : list cell → exc (list cell);
  os_listdir : World → string → exc (list string);
  unified_diff : list string → list string → list string;
  table_from_pandas : DataFrame → exc unit
}.

(** A computation that reads and writes the world and may raise; a raised
    exception keeps the world as it was when it was raised. *)
Definition M (A : Type) : Type := World → exc A * World.

Definition ret {A} (a : A) : M A := λ w, (Ok a, w).
Definition raise {A} (e : exn) : M A := λ w, (Raise e, w).
Definition lift {A} (r : exc A) : M A := λ w, (r, w).
Definition bind {A B} (m : M A) (k : A → M B) : M B := λ w,
  match m w with
  | (Ok a, w') => k a w'
  | (Raise e, w') => (Raise e, w')
  end.
(** [try: m except Exception as e: handler(e)] *)
Definition try_except {A} (m : M A) (handler : exn → M A) : M A := λ w,
  match m w with
  | (Ok a, w') => (Ok a, w')
  | (Raise e, w') => handler e w'
  end.

Notation "'let!' x ':=' m 'in' k" := (bind m (λ x, k))
  (at level 10, x pattern, m at level 100, k at level 200).

Definition print (line : string) : M unit := λ w,
  (Ok (), {| text_files := text_files w; feather_files := feather_files w;
             stdout := stdout w ++ [line] |}).

(** [Path.write_text(content, encoding="utf-8")]. The text of the model
    (code points below 256) always encodes; a name that does not, such as
    a surrogate-escaped one, is outside the model, and so are the errors of
    the operating system on writing. *)
Definition write_text (p content : string) : M unit := λ w,
  (Ok (), {| text_files := <[p := content]> (text_files w);
             feather_files := feather_files w; stdout := stdout w |}).

(** [Path.replace]: rename over the target. *)
Definition replace (src dst : string) : M unit := λ w,
  match text_files w !! src with
  | Some content =>
      (Ok (), {| text_files := <[dst := content]> (delete src (text_files w));
                 feather_files := feather_files w; stdout := stdout w |})
  | None => (Raise FileNotFoundError, w)
  end.

(** [df.to_feather(p)]: the file is opened for writing, which empties it,
    and the table is then converted by pyarrow, which rejects repeated
    column labels with [ValueError] before it looks at the cells. When the
    conversion raises, the file stays empty; otherwise it receives the
    table. *)
Definition to_feather `{Libraries} (p : string) (df : DataFrame) : M unit :=
  λ w,
  match (if decide (NoDup (columns df)) then table_from_pandas df
         else Raise ValueError) with
  | Ok _ =>
      (Ok (), {| text_files := text_files w;
                 feather_files := <[p := Feather df]> (feather_files w);
                 stdout := stdout w |})
  | Raise e =>
      (Raise e, {| text_files := text_files w;
                   feather_files := <[p := Truncated]> (feather_files w);
                   stdout := stdout w |})
  end.

(** [pd.read_feather(p)]: an empty file is not a feather file
    ([ArrowInvalid]). *)
Definition read_feather (p : string) : M DataFrame := λ w,
  match feather_files w !! p with
  | Some (Feather df) => (Ok df, w)
  | Some Truncated => (Raise (OtherError "ArrowInvalid"), w)
  | None => (Raise FileNotFoundError, w)
  end.

(** [pd.read_csv(p, ...)]: with [nrows=n] the result has the first [n] rows
    that the parser delivers, at most. *)
Definition read_csv `{Libraries} (p : string) (o : csv_opts) : M DataFrame :=
  λ w, (df ← csv_engine w p o;
        Ok match nrows o with
           | Some n => {| columns := columns df; rows := take n (rows df) |}
           | None => df
           end, w).

Definition default_opts : csv_opts :=
  {| nrows := None; delimiter := None; encoding := None;
     quotechar := String (Py.chr 34) ""; engine := None; skipfooter := 0 |}.

(** [pd.read_csv(p, nrows=4)] *)
Definition txt_first_opts : csv_opts :=
  {| nrows := Some 4%nat; delimiter := None; encoding := None;
     quotechar := String (Py.chr 34) ""; engine := None; skipfooter := 0 |}.

(** The second call on a [.txt] file: tab delimiter, UTF-16 encoding, the
    double quote as quote character, the python engine, one footer line
    skipped. *)
Definition txt_second_opts : csv_opts :=
  {| nrows := None; delimiter := Some (String (Py.chr 9) "");
     encoding := Some "UTF-16"; quotechar := String (Py.chr 34) "";
     engine := Some "python"; skipfooter := 1 |}.

(** ** [reader.py] *)

Definition iontech_names : gmap string string :=
  list_to_map
    [("Analog_PC_CIT101.Analog_out", "Salt Conductivity (ms/cm)");
     ("Analog_PC_CIT102.Analog_out", "Acid Conductivity (ms/cm)");
     ("Analog_PC_CIT103.Analog_out", "Base Conductivity (ms/cm)");
     ("Analog_PC_HFK101_II.Analog_out", "PS Current (Amps)");
     ("Analog_PC_HFK101_UI.Analog_out", "PS Voltage (Volts)");
     ("Analog_PC_TI101.Analog_out", "Acid? Temperature (C)");
     ("Analog_PC_TI102.Analog_out", "Base? Temperature (C)");
     ("Analog_PC_TI103.Analog_out", "Salt? Temperature (C)");
     ("Analog_PC_TI104.Analog_out", "Electrolyte? Temperature (C)")].

Definition pivot_iontech (df : DataFrame) : exc DataFrame :=
  df ← pivot "TimeString" "VarName" "VarValue" df;
  let df := rename iontech_names df in
  df ← drop ["$RT_DIS$"] df;
  df ← reset_index "Timestamp" df;
  Ok df.

(** The long-form rows [(time, variable, value)] as the table of a tagged
    export, with the column order of such a file. *)
Definition long_form (triples : list (string * string * cell)) : DataFrame :=
  mkDF ["VarName"; "TimeString"; "VarValue"]
    (range_index ((λ e, [CStr e.1.2; CStr e.1.1; e.2]) <$> triples)).

(** [_read_file]: a path whose extension is neither [.txt] nor [.csv] falls
    off the end of the function, which returns [None]. *)
Definition _read_file `{Libraries} (path : string) : M (option DataFrame) :=
  let p := path in
  let '(root, ext) := Py.splitext p in
  if decide (ext = ".txt")
  then try_except (let! df := read_csv p txt_first_opts in ret (Some df))
         (λ _, try_except
                 (let! df := read_csv p txt_second_opts in ret (Some df))
                 (λ e, raise e))
  else if decide (ext = ".csv")
  then try_except (let! df := read_csv p default_opts in ret (Some df))
         (λ e, raise e)
  else ret None.

(** *** Schema definition *)

Record Schema : Type := mkSchema {
  name : string;
  predicate : DataFrame → exc bool;
  normalizer : option (DataFrame → exc DataFrame)
}.

(** [df.columns[i]] *)
Definition columns_item (i : nat) (df : DataFrame) : exc string :=
  match columns df !! i with
  | Some c => Ok c
  | None => Raise IndexError
  end.

Definition _schema_1_pred (df : DataFrame) : exc bool :=
  c0 ← columns_item 0 df;
  if decide (c0 ≠ "VarName") then Ok false
  else c1 ← columns_item 1 df;
       if decide (c1 ≠ "TimeString") then Ok false
       else Ok true.

(** The compiled [date_format]: four digits, two, two, a space, then
    hours, minutes, seconds and one decimal. *)
Definition date_format : list Py.pat :=
  let d := Py.Digit in
  let l := Py.Lit in
  [d; d; d; d; l "-"; d; d; l "-"; d; d; l " ";
   d; d; l ":"; d; d; l ":"; d; d; l "."; d]%char.

(** [df['Timestamp'][0]] is the cell of the one [Timestamp] column in the
    row labelled 0; [match] wants a string. *)
Definition _schema_2_pred (df : DataFrame) : exc bool :=
  match positions "Timestamp" (columns df) with
  | [i] =>
      match filter (λ r, r.1 = CInt 0) (rows df) with
      | [] => Raise KeyError
      | [r] =>
          match cell_at i r.2 with
          | CStr s => if negb (Py.re_match date_format s) then Ok false
                      else Ok true
          | _ => Raise TypeError
          end
      | _ => Raise TypeError
      end
  | _ => Raise KeyError
  end.

Definition _schema_1_normalize `{Libraries} (df : DataFrame) : exc DataFrame :=
  df ← pivot_iontech df;
  pos ← get_loc "Timestamp" (columns df);
  series ← pd_to_datetime (column pos df);
  Ok (set_column pos series df).

Definition _schema_2_normalize `{Libraries} (df : DataFrame) : exc DataFrame :=
  pos ← get_loc "Timestamp" (columns df);
  series ← pd_to_datetime (column pos df);
  Ok (set_column pos series df).

Definition SCHEMA_REGISTRY `{Libraries} : list Schema :=
  [ {| name := "altasea iontech bl3t-25"; predicate := _schema_1_pred;
       normalizer := Some _schema_1_normalize |};
    {| name := "degas system control datalog"; predicate := _schema_2_pred;
       normalizer := Some _schema_2_normalize |} ].

(** *** Engine *)

(** [detect_schema_from_df]; the module-level [SCHEMA_REGISTRY] it iterates
    over is the first argument. A predicate that raises is skipped. *)
Fixpoint detect_schema_from_df (registry : list Schema) (df : DataFrame)
    : option Schema :=
  match registry with
  | [] => None
  | schema :: registry' =>
      match predicate schema df with
      | Ok true => Some schema
      | Ok false => detect_schema_from_df registry' df
      | Raise _ => detect_schema_from_df registry' df
      end
  end.

(** The descriptor [s] with its predicate replaced by one that always
    answers false. *)
Definition with_false_predicate (s : Schema) : Schema :=
  {| name := name s; predicate := λ _, Ok false; normalizer := normalizer s |}.

Definition FILENAME_LOG : string := "filenames.txt".

Definition _read_logged_filenames : M (list string) := λ w,
  match text_files w !! FILENAME_LOG with
  | None => (Ok [], w)
  | Some text =>
      (Ok (Py.strip <$> filter (λ line, Py.strip line ≠ "")
                          (Py.splitlines text)), w)
  end.

Definition _write_logged_filenames (files_list : list string) : M unit :=
  let tmp := Py.with_suffix ".tmp" FILENAME_LOG in
  let! _ := write_text tmp (Py.join (String Py.LF "") files_list
                            +:+ String Py.LF "") in
  replace tmp FILENAME_LOG.

Definition _detect_update `{Libraries} (files_list : list string)
    : M (bool * string) :=
  let! prev := _read_logged_filenames in
  let curr := files_list in
  if decide (prev = curr)
  then ret (false, "No change, reading from feather...")
  else let diff_lines := unified_diff prev curr in
       ret (true, Py.join (String Py.LF "") diff_lines).

(** The [for] loop of [_reload_from_source]; [df_list] is the list of
    tables collected so far. [df.empty] on the [None] that [_read_file] may
    return raises [AttributeError]. *)
Fixpoint reload_loop `{Libraries} (registry : list Schema) (folder : string)
    (files_list : list string) (df_list : list DataFrame)
    : M (list DataFrame) :=
  match files_list with
  | [] => ret df_list
  | file :: files_list' =>
      if Py.contains ".DS_Store" file
      then reload_loop registry folder files_list' df_list
      else
        let! read := _read_file (folder +:+ "/" +:+ file) in
        match read with
        | None => raise AttributeError
        | Some df =>
            if empty df
            then reload_loop registry folder files_list' df_list
            else
              match detect_schema_from_df registry df with
              | Some schema =>
                  match normalizer schema with
                  | Some normalize =>
                      let! df := try_except (lift (normalize df))
                                   (λ e, raise e) in
                      reload_loop registry folder files_list'
                        (df_list ++ [df])
                  | None =>
                      reload_loop registry folder files_list'
                        (df_list ++ [df])
                  end
              | None =>
                  let! _ := print ("Failed to match " +:+ file) in
                  reload_loop registry folder files_list' df_list
              end
        end
  end.

Definition _reload_from_source `{Libraries} (registry : list Schema)
    (folder : string) (files_list : list string) : M DataFrame :=
  let! _ := _write_logged_filenames files_list in
  let! df_list := reload_loop registry folder files_list [] in
  let! df := lift (concat df_list) in
  let! df := lift (sort_values "Timestamp" df) in
  let df := drop_duplicates df in
  let df := reset_index_drop df in
  let! _ := to_feather "data.feather" df in
  ret df.

Definition load_files `{Libraries} (registry : list Schema) (folder : string)
    : M DataFrame :=
  let! files_list := (λ w, (os_listdir w folder, w)) in
  let! (updated, message) := _detect_update files_list in
  let! _ := print message in
  if updated : bool then _reload_from_source registry folder files_list
  else read_feather "data.feather".

(** ** A sample folder *)

(** Concrete libraries, files and tables, on which the properties below are
    instantiated. *)
Module Scenario.

Definition ts1 : string := "2025-03-01 10:00:00.0".
Definition ts2 : string := "2025-03-01 10:15:00.0".

(** Timestamps the sample parser knows, as seconds past 10:00. *)
Definition parse_cell (c : cell) : exc cell :=
  match c with
  | CStr s =>
      if decide (s = ts1) then Ok (CTime 0)
      else if decide (s = ts2) then Ok (CTime 900)
      else Raise ValueError
  | CInt n => Ok (CTime n)
  | CTime ns => Ok (CTime ns)
  | CNaN => Ok CNaN
  end.

(** A wide-form export, a second one with one more column, and a copy of
    the first. *)
Definition wide_a : DataFrame :=
  mkDF ["Timestamp"; "PS Voltage (Volts)"]
    (range_index [[CStr ts2; CInt 80]; [CStr ts1; CInt 75]]).

Definition wide_b : DataFrame :=
  mkDF ["Timestamp"; "PS Voltage (Volts)"; "PS Current (Amps)"]
    (range_index [[CStr ts1; CInt 75; CInt 3]; [CStr ts1; CInt 76; CInt 3]]).

(** A wide-form export whose second timestamp is malformed. *)
Definition wide_bad : DataFrame :=
  mkDF ["Timestamp"; "PS Voltage (Volts)"]
    (range_index [[CStr ts1; CInt 75]; [CStr "yesterday"; CInt 80]]).

(** A table that no schema of the registry recognises. *)
Definition unknown : DataFrame :=
  mkDF ["id"; "comment"] (range_index [[CInt 1; CStr "n/a"]]).

(** Six rows of a text export. *)
Definition six_rows : DataFrame :=
  mkDF ["Timestamp"; "PS Voltage (Volts)"]
    (range_index ((λ n, [CStr ts1; CInt n]) <$> [70; 71; 72; 73; 74; 75]%Z)).

Definition sample_files (p : string) : exc DataFrame :=
  if decide (p = "logs/a.csv") then Ok wide_a
  else if decide (p = "logs/b.csv") then Ok wide_b
  else if decide (p = "logs/c.csv") then Ok wide_a
  else if decide (p = "logs/bad.csv") then Ok wide_bad
  else if decide (p = "logs/notes.csv") then Ok unknown
  else if decide (p = "logs/six.txt") then Ok six_rows
  else Raise (OtherError "ParserError").

Definition libraries : Libraries :=
  {| csv_engine := λ _ p _, sample_files p;
     pd_to_datetime := exc_mapM parse_cell;
     os_listdir := λ _ folder,
       if decide (folder = "logs")
       then Ok ["a.csv"; ".DS_Store"; "b.csv"; "c.csv"; "notes.csv"]
       else Raise FileNotFoundError;
     unified_diff := λ prev curr,
       ["--- previous"; "+++ current"] ++ ((λ l, "-" +:+ l) <$> prev)
       ++ ((λ l, "+" +:+ l) <$> curr);
     table_from_pandas := λ _, Ok () |}.

Definition registry : list Schema := @SCHEMA_REGISTRY libraries.

(** Nothing written yet. *)
Definition fresh : World :=
  {| text_files := ∅; feather_files := ∅; stdout := [] |}.

(** A world left by an earlier run over the single file [a.csv]. *)
Definition after_run : World :=
  (@_reload_from_source libraries registry "logs" ["a.csv"] fresh).2.

(** The listing of the folder, and the table that ingesting it yields. *)
Definition listing : list string :=
  ["a.csv"; ".DS_Store"; "b.csv"; "c.csv"; "notes.csv"].

Definition merged : DataFrame :=
  mkDF ["Timestamp"; "PS Voltage (Volts)"; "PS Current (Amps)"]
    (range_index [[CTime 0; CInt 75; CNaN]; [CTime 0; CInt 75; CInt 3];
                  [CTime 0; CInt 76; CInt 3]; [CTime 900; CInt 80; CNaN]]).

(** A schema whose predicate always raises. *)
Definition broken : Schema :=
  {| name := "broken"; predicate := λ _, Raise KeyError; normalizer := None |}.

End Scenario.

(** The label that [pivot_iontech] gives to the column of the variable
    [c]: its entry in the renaming table, or [c] itself. *)
Definition renamed (c : string) : string := default c (iontech_names !! c).

(** ** More sample tables *)

Module Samples.

(** A tagged export over two instants: a voltage at both, the variable
    [X] at the first only, and the placeholder variable at both. *)
Definition tagged : DataFrame :=
  long_form [(Scenario.ts1, "Analog_PC_HFK101_UI.Analog_out", CInt 75);
             (Scenario.ts1, "$RT_DIS$", CInt 0);
             (Scenario.ts2, "Analog_PC_HFK101_UI.Analog_out", CInt 80);
             (Scenario.ts2, "$RT_DIS$", CInt 0);
             (Scenario.ts1, "X", CInt 1)].

(** Its pivot. *)
Definition pivoted : DataFrame :=
  mkDF ["Timestamp"; "PS Voltage (Volts)"; "X"]
    (range_index [[CStr Scenario.ts1; CInt 75; CInt 1];
                  [CStr Scenario.ts2; CInt 80; CNaN]]).

(** A tagged export without the placeholder variable, one without a
    [VarValue] column, and one in which a variable is reported twice at
    one instant. *)
Definition no_placeholder : DataFrame :=
  long_form [(Scenario.ts1, "X", CInt 1)].

Definition no_values : DataFrame :=
  mkDF ["VarName"; "TimeString"; "Value"]
    (range_index [[CStr "X"; CStr Scenario.ts1; CInt 1]]).

Definition repeated : DataFrame :=
  long_form [(Scenario.ts1, "X", CInt 1); (Scenario.ts1, "X", CInt 2);
             (Scenario.ts1, "$RT_DIS$", CInt 0)].

(** The world after a first call of [load_files] over the sample folder,
    and the tables that the loop collects there. *)
Definition loaded : World :=
  (@load_files Scenario.libraries Scenario.registry "logs" Scenario.fresh).2.

(** The world after a run of [_reload_from_source] over the sample
    folder. *)
Definition loaded_from_source : World :=
  (@_reload_from_source Scenario.libraries Scenario.registry "logs"
     Scenario.listing Scenario.fresh).2.

Definition collected : list DataFrame :=
  match (@reload_loop Scenario.libraries Scenario.registry "logs"
           Scenario.listing [] Scenario.fresh).1 with
  | Ok df_list => df_list
  | Raise _ => []
  end.



(** The world of [Scenario.after_run] once the listing of that folder is
    logged, and the table collected from [a.csv]. *)
Definition logged_bad : World :=
  (_write_logged_filenames ["a.csv"; "bad.csv"] Scenario.after_run).2.

Definition collected_a : list DataFrame :=
  [mkDF ["Timestamp"; "PS Voltage (Volts)"]
     (range_index [[CTime 900; CInt 80]; [CTime 0; CInt 75]])].

(** The world in which the listing [a.csv], [b.csv] has been persisted. *)
Definition logged_ab : World :=
  (_write_logged_filenames ["a.csv"; "b.csv"] Scenario.fresh).2.

(** A tagged export that reports the voltage twice at one instant, once
    under its raw identifier and once under the name that the renaming
    table gives to that identifier. *)
Definition doubled : DataFrame :=
  long_form [(Scenario.ts1, "Analog_PC_HFK101_UI.Analog_out", CInt 75);
             (Scenario.ts1, "PS Voltage (Volts)", CInt 76);
             (Scenario.ts1, "$RT_DIS$", CInt 0)].

(** A folder that holds this export alone. *)
Definition libraries_dup : Libraries :=
  {| csv_engine := λ _ p _,
       if decide (p = "logs/dup.csv") then Ok doubled
       else Raise (OtherError "ParserError");
     pd_to_datetime := @pd_to_datetime Scenario.libraries;
     os_listdir := λ _ _, Ok ["dup.csv"];
     unified_diff := @unified_diff Scenario.libraries;
     table_from_pandas := @table_from_pandas Scenario.libraries |}.

End Samples.

(** ** Detection *)

Section detection.
Implicit Types (registry : list Schema) (df : DataFrame) (s : Schema).

Lemma detect_cons_match registry df s :
  predicate s df = Ok true →
  detect_schema_from_df (s :: registry) df = Some s.
Proof. simpl. by intros ->. Qed.

Lemma detect_cons_skip registry df s :
  predicate s df ≠ Ok true →
  detect_schema_from_df (s :: registry) df = detect_schema_from_df registry df.
Proof. simpl. by destruct (predicate s df) as [[]|]. Qed.

Lemma detect_app_skip before registry df :
  Forall (λ s, predicate s df ≠ Ok true) before →
  detect_schema_from_df (before ++ registry) df
  = detect_schema_from_df registry df.
Proof.
  induction 1 as [|s before Hs _ IH]; [done|].
  by rewrite <-app_comm_cons, detect_cons_skip.
Qed.

(** C1: detection returns the first descriptor, in registration order,
    whose predicate is true on the table, and [None] when no descriptor's
    predicate is true on it. *)
Theorem detect_first_match registry df :
  match detect_schema_from_df registry df with
  | Some s =>
      ∃ before after,
        registry = before ++ s :: after ∧
        predicate s df = Ok true ∧
        Forall (λ s', predicate s' df ≠ Ok true) before
  | None => Forall (λ s', predicate s' df ≠ Ok true) registry
  end.
Proof.
  induction registry as [|s registry IH]; [by constructor|].
  destruct (decide (predicate s df = Ok true)) as [Hs|Hs].
  - rewrite detect_cons_match by done.
    exists [], registry. by repeat split.
  - rewrite detect_cons_skip by done.
    destruct (detect_schema_from_df registry df) as [s0|].
    + destruct IH as (before & after & -> & Hm & Hb).
      exists (s :: before), after. repeat split; [done|].
      by constructor.
    + by constructor.
Qed.

(** The characterisation determines the result: a descriptor that matches
    after a prefix of descriptors that do not is the one returned. *)
Lemma first_match_is_detected before s after df :
  Forall (λ s', predicate s' df ≠ Ok true) before →
  predicate s df = Ok true →
  detect_schema_from_df (before ++ s :: after) df = Some s.
Proof.
  intros Hb Hs. rewrite detect_app_skip by done.
  by apply detect_cons_match.
Qed.

(** C9: replacing a predicate that always raises by one that always
    returns false leaves the result of detection unchanged on every
    table. *)
Theorem raising_predicate_as_false before s after df :
  (∀ t, ∃ e, predicate s t = Raise e) →
  detect_schema_from_df (before ++ s :: after) df
  = detect_schema_from_df (before ++ with_false_predicate s :: after) df.
Proof.
  intros Hraise.
  induction before as [|s0 before IH]; simpl.
  - by destruct (Hraise df) as [e ->].
  - by rewrite IH.
Qed.

Lemma raising_predicate_as_false_witness :
  detect_schema_from_df (Scenario.broken :: Scenario.registry) Scenario.wide_a
  = detect_schema_from_df
      (with_false_predicate Scenario.broken :: Scenario.registry)
      Scenario.wide_a.
Proof.
  apply (raising_predicate_as_false [] Scenario.broken Scenario.registry).
  intros t. by exists KeyError.
Defined.
End detection.

(** ** The loader *)

Section loader.
Context `{Libraries}.

Lemma read_file_world path w : (_read_file path w).2 = w.
Proof.
  unfold _read_file. destruct (Py.splitext path) as [root ext].
  repeat case_decide; unfold try_except, bind, read_csv, ret, raise;
    simpl; repeat (destruct (csv_engine _ _ _); simpl); done.
Qed.

(** A [.csv] file that the parser rejects makes the loader raise. *)
Lemma read_file_csv_raises path root w e :
  Py.splitext path = (root, ".csv") →
  csv_engine w path default_opts = Raise e →
  _read_file path w = (Raise e, w).
Proof.
  intros Hext He. unfold _read_file. rewrite Hext.
  rewrite decide_False by done. rewrite decide_True by done.
  unfold try_except, bind, read_csv. by rewrite He.
Qed.

(** A [.txt] file that both calls reject makes the loader raise. *)
Lemma read_file_txt_raises path root w e1 e2 :
  Py.splitext path = (root, ".txt") →
  csv_engine w path txt_first_opts = Raise e1 →
  csv_engine w path txt_second_opts = Raise e2 →
  _read_file path w = (Raise e2, w).
Proof.
  intros Hext He1 He2. unfold _read_file. rewrite Hext.
  rewrite decide_True by done.
  unfold try_except, bind, read_csv. rewrite He1. simpl. by rewrite He2.
Qed.

(** C7: on a path whose extension is neither [.txt] nor [.csv], so that no
    parsing strategy handles it, the loader does not raise: it returns
    [None], for every parser and every world. *)
Theorem read_file_unrecognized_extension path root ext w :
  Py.splitext path = (root, ext) →
  ext ≠ ".txt" →
  ext ≠ ".csv" →
  _read_file path w = (Ok None, w).
Proof.
  intros Hext Htxt Hcsv. unfold _read_file. rewrite Hext.
  by rewrite !decide_False by done.
Qed.

(** C10: when the first call on a [.txt] file succeeds, the loader returns
    its table, which has the first four rows delivered at most; the second
    call decides the result only when the first one raises. *)
Theorem read_file_txt_first_four_rows path root w :
  Py.splitext path = (root, ".txt") →
  (∀ df, csv_engine w path txt_first_opts = Ok df →
     _read_file path w
     = (Ok (Some {| columns := columns df; rows := take 4 (rows df) |}), w)
     ∧ length (take 4 (rows df)) ≤ 4) ∧
  (∀ e, csv_engine w path txt_first_opts = Raise e →
     _read_file path w = (Some <$> csv_engine w path txt_second_opts, w)).
Proof.
  intros Hext. unfold _read_file. rewrite Hext.
  rewrite decide_True by done. split.
  - intros df Hdf. unfold try_except, bind, read_csv. rewrite Hdf. simpl.
    split; [done|]. rewrite length_take. lia.
  - intros e He. unfold try_except, bind, read_csv. rewrite He. simpl.
    by destruct (csv_engine w path txt_second_opts).
Qed.
End loader.

Lemma read_file_unrecognized_extension_witness :
  @_read_file Scenario.libraries "logs/notes.xlsx" Scenario.fresh
  = (Ok None, Scenario.fresh).
Proof.
  apply (@read_file_unrecognized_extension Scenario.libraries
           "logs/notes.xlsx" "logs/notes" ".xlsx" Scenario.fresh);
    [reflexivity|discriminate|discriminate].
Defined.

Lemma read_file_txt_first_four_rows_witness :
  @_read_file Scenario.libraries "logs/six.txt" Scenario.fresh
  = (Ok (Some {| columns := columns Scenario.six_rows;
                 rows := take 4 (rows Scenario.six_rows) |}), Scenario.fresh)
  ∧ length (take 4 (rows Scenario.six_rows)) ≤ 4.
Proof.
  apply (@read_file_txt_first_four_rows Scenario.libraries
           "logs/six.txt" "logs/six" Scenario.fresh); reflexivity.
Defined.

(** ** Change detection *)

Section change_detection.
Context `{Libraries}.

Lemma read_logged_filenames_world w : (_read_logged_filenames w).2 = w.
Proof.
  unfold _read_logged_filenames.
  by destruct (text_files w !! FILENAME_LOG).
Qed.

Lemma read_logged_filenames_ok w :
  ∃ prev, _read_logged_filenames w = (Ok prev, w).
Proof.
  unfold _read_logged_filenames.
  destruct (text_files w !! FILENAME_LOG); eauto.
Qed.

Lemma detect_update_result files_list w :
  ∃ prev,
    _read_logged_filenames w = (Ok prev, w) ∧
    _detect_update files_list w
    = (Ok (if decide (prev = files_list)
           then (false, "No change, reading from feather...")
           else (true, Py.join (String Py.LF "")
                         (unified_diff prev files_list))), w).
Proof.
  destruct (read_logged_filenames_ok w) as [prev Hprev]. exists prev.
  split; [done|]. unfold _detect_update, bind. rewrite Hprev.
  by case_decide.
Qed.

End change_detection.

(** ** The log read back *)

Section log_round_trip.
Implicit Types (s line rest : string) (l : list string).

Lemma append_cons c s rest : String c s +:+ rest = String c (s +:+ rest).
Proof. reflexivity. Qed.

Lemma append_empty_r s : s +:+ "" = s.
Proof.
  induction s as [|c s IH]; [done|]. rewrite append_cons. by f_equal.
Qed.

Lemma append_assoc s1 s2 s3 : (s1 +:+ s2) +:+ s3 = s1 +:+ (s2 +:+ s3).
Proof.
  induction s1 as [|c s1 IH]; [done|]. rewrite !append_cons. by f_equal.
Qed.

(** A line without boundaries is read up to the line feed that ends it. *)
Lemma splitlines_from_line line s rest :
  Py.no_line_boundary s = true →
  Py.splitlines_from false line (s +:+ String Py.LF rest)
  = (line +:+ s) :: Py.splitlines_from false "" rest.
Proof.
  revert line. induction s as [|c s IH]; intros line Hs.
  - by rewrite append_empty_r.
  - simpl in Hs. apply andb_true_iff in Hs as [Hc Hs].
    apply negb_true_iff in Hc. rewrite append_cons. simpl.
    rewrite Hc, IH by done. by rewrite append_assoc.
Qed.

Lemma splitlines_join x l :
  Forall (λ s, Py.no_line_boundary s = true) (x :: l) →
  Py.splitlines (Py.join (String Py.LF "") (x :: l) +:+ String Py.LF "")
  = x :: l.
Proof.
  revert x. induction l as [|y l IH]; intros x Hxl.
  - apply Forall_cons in Hxl as [Hx _]. unfold Py.splitlines. simpl Py.join.
    by rewrite splitlines_from_line.
  - apply Forall_cons in Hxl as [Hx Hl].
    change (Py.join (String Py.LF "") (x :: y :: l))
      with (x +:+ String Py.LF "" +:+ Py.join (String Py.LF "") (y :: l)).
    rewrite !append_assoc, append_cons. unfold Py.splitlines.
    rewrite splitlines_from_line by done.
    f_equal. by apply IH.
Qed.

Lemma strip_plain_names l :
  Forall Py.plain_name l →
  Py.strip <$> filter (λ line, Py.strip line ≠ "") l = l.
Proof.
  induction 1 as [|s l (Hne & _ & Hstrip) _ IH]; [done|].
  rewrite filter_cons_True by (by rewrite Hstrip).
  rewrite fmap_cons. by rewrite Hstrip, IH.
Qed.

(** The listing written by [_write_logged_filenames] is the one read back,
    for names that a line carries unchanged. *)
Lemma logged_filenames_round_trip files_list w :
  Forall Py.plain_name files_list →
  ∃ w0,
    _write_logged_filenames files_list w = (Ok (), w0) ∧
    _read_logged_filenames w0 = (Ok files_list, w0).
Proof.
  intros Hplain.
  unfold _write_logged_filenames, bind, write_text, replace. simpl.
  rewrite lookup_insert_eq. eexists. split; [done|].
  unfold _read_logged_filenames. simpl. rewrite lookup_insert_eq.
  do 2 f_equal.
  destruct files_list as [|x l]; [done|].
  rewrite splitlines_join
    by (eapply Forall_impl; [done|]; by intros s (_ & ? & _)).
  by apply strip_plain_names.
Qed.

(** After a listing of such names is logged, the same listing counts as
    unchanged. *)
Lemma detect_update_after_write `{Libraries} files_list w :
  Forall Py.plain_name files_list →
  ∃ w0,
    _write_logged_filenames files_list w = (Ok (), w0) ∧
    _detect_update files_list w0
    = (Ok (false, "No change, reading from feather..."), w0).
Proof.
  intros (w0 & Hw0 & Hread)%(logged_filenames_round_trip _ w).
  exists w0. split; [done|].
  unfold _detect_update, bind. rewrite Hread. by rewrite decide_True.
Qed.

(** C6, as stated: a name with white space at an end is read back without
    it, so that the listing that was just persisted, given again as the
    current one, counts as changed. *)
Lemma detect_update_padded_name :
  ∃ message w0,
    _write_logged_filenames [" a.csv"] Scenario.fresh = (Ok (), w0) ∧
    @_detect_update Scenario.libraries [" a.csv"] w0 = (Ok (true, message), w0).
Proof.
  do 2 eexists. split; [vm_compute; reflexivity|]. vm_compute; reflexivity.
Qed.
End log_round_trip.

(** ** The persisted listing *)

Section persisted_listing.
Context `{Libraries}.
Implicit Types (prev curr : list string) (w : World).

(** C6, as amended: [_detect_update] reports unchanged exactly when the
    current listing equals, as a sequence, the listing read back from the
    log: its lines stripped of white space at both ends, without the blank
    ones, and the empty listing when there is no log file. After
    [_write_logged_filenames] has persisted a listing of names that a log
    line carries unchanged, that is the persisted listing itself; a
    swapped pair of distinct names is then a change. *)
Theorem detect_update_unchanged_iff prev curr w w0 :
  Forall Py.plain_name prev →
  _write_logged_filenames prev w = (Ok (), w0) →
  (∃ updated message,
     _detect_update curr w0 = (Ok (updated, message), w0) ∧
     (updated = false ↔ curr = prev) ∧
     (∀ a b, a ≠ b → prev = [a; b] → curr = [b; a] → updated = true)) ∧
  (∀ w',
     ∃ updated message,
       _detect_update curr w' = (Ok (updated, message), w') ∧
       (updated = false
        ↔ curr = match text_files w' !! FILENAME_LOG with
                 | Some text =>
                     Py.strip <$> filter (λ line, Py.strip line ≠ "")
                                    (Py.splitlines text)
                 | None => []
                 end)).
Proof.
  intros Hplain Hw0. split.
  - destruct (logged_filenames_round_trip prev w Hplain)
      as (w0' & Hw0' & Hread).
    rewrite Hw0 in Hw0'. injection Hw0' as <-.
    destruct (detect_update_result curr w0) as (prev' & Hprev' & ->).
    rewrite Hread in Hprev'. injection Hprev' as <-.
    case_decide as Heq.
    + eexists false, _. split_and!; [done|done|].
      intros a b Hab -> ->. injection Heq as Hba _. by destruct Hab.
    + eexists true, _. split_and!; [done| |done].
      split; [done|]. intros ->. by destruct Heq.
  - intros w'.
    destruct (detect_update_result curr w') as (prev' & Hprev' & ->).
    assert (prev' = match text_files w' !! FILENAME_LOG with
                    | Some text =>
                        Py.strip <$> filter (λ line, Py.strip line ≠ "")
                                       (Py.splitlines text)
                    | None => []
                    end) as <-.
    { unfold _read_logged_filenames in Hprev'.
      destruct (text_files w' !! FILENAME_LOG); congruence. }
    case_decide as Heq.
    + eexists false, _. by split_and!.
    + eexists true, _. split; [done|]. split; [done|].
      intros ->. by destruct Heq.
Qed.
End persisted_listing.

Lemma detect_update_unchanged_iff_witness :
  ∃ message,
    @_detect_update Scenario.libraries ["b.csv"; "a.csv"] Samples.logged_ab
    = (Ok (true, message), Samples.logged_ab).
Proof.
  destruct (@detect_update_unchanged_iff Scenario.libraries
              ["a.csv"; "b.csv"] ["b.csv"; "a.csv"] Scenario.fresh
              Samples.logged_ab) as [(updated & message & Hrun & _ & Hswap) _].
  - repeat (constructor;
            [split_and!; [discriminate|vm_compute; reflexivity..]|]).
    constructor.
  - vm_compute; reflexivity.
  - exists message.
    assert (updated = true) as Hupdated
      by (apply (Hswap "a.csv" "b.csv"); [discriminate|reflexivity..]).
    subst updated. exact Hrun.
Defined.

(** ** Normalizers *)

Section tables.
Implicit Types (df : DataFrame) (series : list cell).

Lemma labels_set_column pos series df :
  labels (set_column pos series df) = labels df.
Proof.
  unfold labels, set_column. simpl. apply list_eq. intros k.
  rewrite !list_lookup_fmap, list_lookup_imap.
  by destruct (rows df !! k).
Qed.

Lemma values_set_column_lookup pos series df k :
  values (set_column pos series df) !! k
  = (λ r, <[pos := cell_at k series]> r) <$> values df !! k.
Proof.
  unfold values, set_column. simpl.
  rewrite !list_lookup_fmap, list_lookup_imap.
  by destruct (rows df !! k).
Qed.

Lemma column_set_column_ne pos series df j :
  j ≠ pos → column j (set_column pos series df) = column j df.
Proof.
  intros Hj. unfold column. apply list_eq. intros k.
  rewrite !list_lookup_fmap, values_set_column_lookup.
  destruct (values df !! k) as [r|]; [simpl|done].
  unfold cell_at. by rewrite list_lookup_insert_ne.
Qed.
End tables.

Section normalizers.
Context `{Libraries}.

(** C8: on a table with one [Timestamp] column that [pd.to_datetime]
    accepts, the wide-form normalizer returns a table with the same column
    labels, the same index and the same rows in the same order, in which
    only the cell under [Timestamp] of each row is replaced. *)
Theorem schema_2_normalize_frame df pos series :
  get_loc "Timestamp" (columns df) = Ok pos →
  pd_to_datetime (column pos df) = Ok series →
  ∃ df',
    _schema_2_normalize df = Ok df' ∧
    columns df' = columns df ∧
    labels df' = labels df ∧
    length (rows df') = length (rows df) ∧
    (∀ k, values df' !! k
          = (λ r, <[pos := cell_at k series]> r) <$> values df !! k) ∧
    (∀ j, j ≠ pos → column j df' = column j df).
Proof.
  intros Hpos Hseries. exists (set_column pos series df).
  unfold _schema_2_normalize. rewrite Hpos. simpl. rewrite Hseries. simpl.
  split_and!; [done|done|apply labels_set_column| |
               apply values_set_column_lookup|
               intros j; apply column_set_column_ne].
  unfold set_column. simpl. by rewrite length_imap.
Qed.

Lemma sorted_unique_same (t : string) n :
  sorted_unique (replicate (S n) t) = [t].
Proof.
  unfold sorted_unique.
  assert (remove_dups (replicate (S n) t) = [t]) as ->; [|done].
  induction n as [|n IH]; [done|].
  change (replicate (S (S n)) t) with (t :: replicate (S n) t).
  cbn [remove_dups].
  destruct (decide_rel elem_of t (replicate (S n) t)) as [_|Hn]; [done|].
  destruct Hn. simpl. by left.
Qed.

Lemma pivot_long_form_pair t1 :
  pivot "TimeString" "VarName" "VarValue"
    (long_form [(t1, "X", CInt 1); (t1, "Y", CInt 2)])
  = Ok {| columns := ["X"; "Y"];
          rows := [(CStr t1, [CInt 1; CInt 2])] |}.
Proof.
  unfold pivot. simpl.
  rewrite decide_True
    by (repeat constructor; rewrite ?elem_of_cons, elem_of_nil;
        intuition congruence).
  change [t1; t1] with (replicate 2 t1).
  rewrite (sorted_unique_same t1 1).
  change (sorted_unique ["X"; "Y"]) with ["X"; "Y"].
  simpl. repeat (case_decide; try (exfalso; intuition congruence)). done.
Qed.

Lemma pivot_long_form_placeholder t1 v :
  pivot "TimeString" "VarName" "VarValue"
    (long_form [(t1, "X", CInt 1); (t1, "Y", CInt 2); (t1, "$RT_DIS$", v)])
  = Ok {| columns := ["$RT_DIS$"; "X"; "Y"];
          rows := [(CStr t1, [v; CInt 1; CInt 2])] |}.
Proof.
  unfold pivot. simpl.
  rewrite decide_True
    by (repeat constructor; rewrite ?elem_of_cons, elem_of_nil;
        intuition congruence).
  change [t1; t1; t1] with (replicate 3 t1).
  rewrite (sorted_unique_same t1 2).
  change (sorted_unique ["X"; "Y"; "$RT_DIS$"]) with ["$RT_DIS$"; "X"; "Y"].
  simpl. repeat (case_decide; try (exfalso; intuition congruence)). done.
Qed.

(** Without a row of the placeholder variable there is no column to drop,
    and [pivot_iontech] raises. *)
Lemma pivot_iontech_pair_raises t1 :
  pivot_iontech (long_form [(t1, "X", CInt 1); (t1, "Y", CInt 2)])
  = Raise KeyError.
Proof. unfold pivot_iontech. by rewrite pivot_long_form_pair. Qed.

Lemma pivot_iontech_placeholder t1 v :
  pivot_iontech
    (long_form [(t1, "X", CInt 1); (t1, "Y", CInt 2); (t1, "$RT_DIS$", v)])
  = Ok {| columns := ["Timestamp"; "X"; "Y"];
          rows := [(CInt 0, [CStr t1; CInt 1; CInt 2])] |}.
Proof. unfold pivot_iontech. by rewrite pivot_long_form_placeholder. Qed.

(** C3, as the code has it: the long-form rows [(t1, X, 1)] and
    [(t1, Y, 2)], together with a row of the placeholder variable
    [$RT_DIS$] at [t1], are normalized to the single row
    [{Timestamp: t1, X: 1, Y: 2}]. *)
Theorem schema_1_normalize_pair_with_placeholder t1 i1 v :
  pd_to_datetime [CStr t1] = Ok [CTime i1] →
  _schema_1_normalize
    (long_form [(t1, "X", CInt 1); (t1, "Y", CInt 2); (t1, "$RT_DIS$", v)])
  = Ok {| columns := ["Timestamp"; "X"; "Y"];
          rows := [(CInt 0, [CTime i1; CInt 1; CInt 2])] |}.
Proof.
  intros Ht. unfold _schema_1_normalize.
  rewrite pivot_iontech_placeholder. simpl.
  change (get_loc "Timestamp" ["Timestamp"; "X"; "Y"]) with (Ok 0 : exc nat).
  simpl. unfold column. simpl. change (cell_at 0 _) with (CStr t1).
  by rewrite Ht.
Qed.
End normalizers.

(** C3, as stated: on the two rows alone the normalizer does not return a
    table; it raises [KeyError], the placeholder column being absent. *)
Lemma schema_1_normalize_pair_raises :
  @_schema_1_normalize Scenario.libraries
    (long_form [(Scenario.ts1, "X", CInt 1); (Scenario.ts1, "Y", CInt 2)])
  = Raise KeyError
  ∧ @_schema_1_normalize Scenario.libraries
      (long_form [(Scenario.ts1, "X", CInt 1); (Scenario.ts1, "Y", CInt 2)])
    ≠ Ok {| columns := ["Timestamp"; "X"; "Y"];
            rows := [(CInt 0, [CTime 0; CInt 1; CInt 2])] |}.
Proof. split; [by vm_compute|]. by vm_compute. Qed.

Lemma schema_1_normalize_pair_with_placeholder_witness :
  @_schema_1_normalize Scenario.libraries
    (long_form [(Scenario.ts1, "X", CInt 1); (Scenario.ts1, "Y", CInt 2);
                (Scenario.ts1, "$RT_DIS$", CInt 0)])
  = Ok {| columns := ["Timestamp"; "X"; "Y"];
          rows := [(CInt 0, [CTime 0; CInt 1; CInt 2])] |}.
Proof.
  apply (@schema_1_normalize_pair_with_placeholder Scenario.libraries).
  reflexivity.
Defined.

Lemma schema_2_normalize_frame_witness :
  ∃ df',
    @_schema_2_normalize Scenario.libraries Scenario.wide_a = Ok df' ∧
    columns df' = columns Scenario.wide_a ∧
    labels df' = labels Scenario.wide_a ∧
    length (rows df') = length (rows Scenario.wide_a) ∧
    (∀ k, values df' !! k
          = (λ r, <[0 := cell_at k [CTime 900; CTime 0]]> r)
            <$> values Scenario.wide_a !! k) ∧
    (∀ j, j ≠ 0 → column j df' = column j Scenario.wide_a).
Proof.
  apply (@schema_2_normalize_frame Scenario.libraries Scenario.wide_a 0
           [CTime 900; CTime 0]); reflexivity.
Defined.

(** ** Sorting and duplicates *)

Section ordering.
Implicit Types (a b c : cell) (pos : nat).

#[global] Instance key_le_total : Total key_le.
Proof.
  intros a b. unfold key_le.
  destruct a as [s|m|m|], b as [t|n|n|]; simpl; auto.
  - destruct (String.leb_total s t); auto.
  - rewrite !Z.leb_le. lia.
  - rewrite !Z.leb_le. lia.
Qed.

#[global] Instance key_le_trans : Transitive key_le.
Proof.
  intros a b c. unfold key_le.
  destruct a as [s|m|m|], b as [t|n|n|], c as [u|k|k|]; simpl;
    try done; rewrite ?Z.leb_le; try lia.
  intros Hst Htu. apply Is_true_true.
  transitivity t; by apply Is_true_true.
Qed.

#[global] Instance row_le_total pos : Total (row_le pos).
Proof. intros r1 r2. apply key_le_total. Qed.

#[global] Instance row_le_trans pos : Transitive (row_le pos).
Proof. intros r1 r2 r3. apply key_le_trans. Qed.

(** Among instants the order is the chronological one, and a missing
    timestamp comes after every instant. *)
Lemma key_le_instants (m n : Z) : key_le (CTime m) (CTime n) ↔ (m ≤ n)%Z.
Proof. unfold key_le. simpl. apply Z.leb_le. Qed.

Lemma key_le_missing_last a : key_le a CNaN.
Proof. by destruct a. Qed.

Lemma key_le_missing_first a : key_le CNaN a → a = CNaN.
Proof. by destruct a. Qed.
End ordering.

Section rows.
Implicit Types (df : DataFrame) (rs : list (cell * list cell)).
Implicit Types (seen : list (list cell)) (v : list cell).

Lemma StronglySorted_sublist {A} (R : relation A) (l1 l2 : list A) :
  l1 `sublist_of` l2 → StronglySorted R l2 → StronglySorted R l1.
Proof.
  induction 1 as [|x l1 l2 Hsub IH|x l1 l2 Hsub IH]; intros Hs; [done|..].
  - apply StronglySorted_inv in Hs as [Hs Hx]. constructor; [by apply IH|].
    rewrite Forall_forall in Hx |- *. eauto using elem_of_sublist.
  - apply StronglySorted_inv in Hs as [Hs _]. by apply IH.
Qed.

Lemma drop_seen_sublist seen rs : drop_seen seen rs `sublist_of` rs.
Proof.
  revert seen. induction rs as [|r rs IH]; intros seen; simpl; [done|].
  case_decide; [by apply sublist_cons|by apply sublist_skip].
Qed.

Lemma elem_of_drop_seen seen rs v :
  v ∈ (drop_seen seen rs).*2 ↔ v ∈ rs.*2 ∧ v ∉ seen.
Proof.
  revert seen. induction rs as [|r rs IH]; intros seen; simpl.
  - rewrite elem_of_nil. naive_solver.
  - case_decide as Hr.
    + rewrite IH, elem_of_cons. naive_solver.
    + simpl. rewrite !elem_of_cons, IH, not_elem_of_cons.
      destruct (decide (v = r.2)); naive_solver.
Qed.

Lemma NoDup_drop_seen seen rs : NoDup (drop_seen seen rs).*2.
Proof.
  revert seen. induction rs as [|r rs IH]; intros seen; simpl.
  - constructor.
  - case_decide as Hr; [done|]. simpl. apply NoDup_cons. split; [|done].
    rewrite elem_of_drop_seen, not_elem_of_cons. naive_solver.
Qed.

Lemma values_range_index (vs : list (list cell)) : (range_index vs).*2 = vs.
Proof.
  unfold range_index. rewrite fmap_imap. apply list_eq. intros k.
  rewrite list_lookup_imap. by destruct (vs !! k).
Qed.

Lemma labels_range_index (vs : list (list cell)) :
  (range_index vs).*1 = (λ k, CInt (Z.of_nat k)) <$> seq 0 (length vs).
Proof.
  unfold range_index. rewrite fmap_imap. apply list_eq. intros k.
  rewrite list_lookup_imap, list_lookup_fmap.
  destruct (vs !! k) as [v|] eqn:Hk; simpl.
  - apply lookup_lt_Some in Hk. by rewrite lookup_seq_lt.
  - apply lookup_ge_None in Hk. by rewrite lookup_seq_ge.
Qed.

Lemma insert_row_Permutation pos r rs : insert_row pos r rs ≡ₚ r :: rs.
Proof.
  induction rs as [|r' rs IH]; simpl; [done|].
  case_decide; [done|]. rewrite IH. apply Permutation_swap.
Qed.

Lemma sort_rows_Permutation pos rs : sort_rows pos rs ≡ₚ rs.
Proof.
  induction rs as [|r rs IH]; simpl; [done|].
  by rewrite insert_row_Permutation, IH.
Qed.

Lemma StronglySorted_insert_row pos r rs :
  StronglySorted (row_le pos) rs →
  StronglySorted (row_le pos) (insert_row pos r rs).
Proof.
  induction 1 as [|r' rs Hs IH Hr']; simpl.
  - repeat constructor.
  - case_decide as Hle.
    + constructor; [by constructor|]. constructor; [done|].
      eapply Forall_impl; [done|]. intros r2 Hr2. by etrans.
    + constructor; [done|]. rewrite insert_row_Permutation.
      constructor; [|done]. by destruct (total (row_le pos) r r').
Qed.

Lemma StronglySorted_sort_rows pos rs :
  StronglySorted (row_le pos) (sort_rows pos rs).
Proof.
  induction rs as [|r rs IH]; simpl; [constructor|].
  by apply StronglySorted_insert_row.
Qed.

Lemma sort_values_ok label df out :
  sort_values label df = Ok out →
  ∃ pos,
    get_loc label (columns df) = Ok pos ∧
    columns out = columns df ∧
    rows out ≡ₚ rows df ∧
    StronglySorted (row_le pos) (rows out).
Proof.
  unfold sort_values. destruct (get_loc label (columns df)) as [pos|];
    simpl; [|done].
  destruct (comparable (column pos df)); [|done].
  intros [= <-]. exists pos. simpl.
  split_and!; [done|done|apply sort_rows_Permutation|].
  apply StronglySorted_sort_rows.
Qed.

(** What the tail of [_reload_from_source] makes of a concatenated table:
    [sort_values], [drop_duplicates] and [reset_index]. *)
Lemma sorted_deduplicated cat sorted :
  sort_values "Timestamp" cat = Ok sorted →
  let out := reset_index_drop (drop_duplicates sorted) in
  ∃ pos,
    get_loc "Timestamp" (columns out) = Ok pos ∧
    columns out = columns cat ∧
    StronglySorted (λ v1 v2, key_le (cell_at pos v1) (cell_at pos v2))
      (values out) ∧
    NoDup (values out) ∧
    (∀ v, v ∈ values out ↔ v ∈ values cat).
Proof.
  intros (pos & Hpos & Hcols & Hperm & Hsorted)%sort_values_ok out.
  exists pos.
  assert (values out = (drop_seen [] (rows sorted)).*2) as Hout.
  { unfold out, values. simpl. apply values_range_index. }
  rewrite Hout.
  split_and!.
  - unfold out. simpl. by rewrite Hcols.
  - done.
  - apply (StronglySorted_fmap snd (row_le pos)); [done|].
    eapply StronglySorted_sublist; [apply drop_seen_sublist|done].
  - apply NoDup_drop_seen.
  - intros v. rewrite elem_of_drop_seen. unfold values.
    rewrite Hperm, elem_of_nil. naive_solver.
Qed.
End rows.

(** ** Ingestion *)

Section ingestion.
Context `{Libraries}.
Implicit Types (registry : list Schema) (folder file : string).
Implicit Types (files_list : list string) (df_list : list DataFrame).
Implicit Types (w : World).

(** The log is written through the temporary file, and the cache is not
    touched by it. *)
Lemma write_logged_filenames_ok files_list w :
  ∃ w0,
    _write_logged_filenames files_list w = (Ok (), w0) ∧
    feather_files w0 = feather_files w ∧
    text_files w0 !! FILENAME_LOG
    = Some (Py.join (String Py.LF "") files_list +:+ String Py.LF "").
Proof.
  unfold _write_logged_filenames, bind, write_text, replace. simpl.
  rewrite lookup_insert_eq. eexists. split_and!; [done|done|].
  simpl. by rewrite lookup_insert_eq.
Qed.

Lemma reload_loop_feather registry folder files_list df_list w :
  feather_files (reload_loop registry folder files_list df_list w).2
  = feather_files w.
Proof.
  revert df_list w.
  induction files_list as [|file files_list IH]; intros df_list w; simpl;
    [done|].
  destruct (Py.contains ".DS_Store" file); [apply IH|].
  unfold bind.
  pose proof (read_file_world (folder +:+ "/" +:+ file) w) as Hw.
  destruct (_read_file _ w) as [[[df|]|e] w1]; simpl in Hw; subst w1;
    simpl; try done.
  destruct (empty df); [apply IH|].
  destruct (detect_schema_from_df registry df) as [schema|].
  - destruct (normalizer schema) as [normalize|]; [|apply IH].
    unfold try_except, lift. destruct (normalize df); simpl; [apply IH|done].
  - unfold print. simpl. by rewrite IH.
Qed.

Lemma reload_loop_text_files registry folder files_list df_list w :
  text_files (reload_loop registry folder files_list df_list w).2
  = text_files w.
Proof.
  revert df_list w.
  induction files_list as [|file files_list IH]; intros df_list w; simpl;
    [done|].
  destruct (Py.contains ".DS_Store" file); [apply IH|].
  unfold bind.
  pose proof (read_file_world (folder +:+ "/" +:+ file) w) as Hw.
  destruct (_read_file _ w) as [[[df|]|e] w1]; simpl in Hw; subst w1;
    simpl; try done.
  destruct (empty df); [apply IH|].
  destruct (detect_schema_from_df registry df) as [schema|].
  - destruct (normalizer schema) as [normalize|]; [|apply IH].
    unfold try_except, lift. destruct (normalize df); simpl; [apply IH|done].
  - unfold print. simpl. by rewrite IH.
Qed.

Lemma reload_loop_app registry folder pre post df_list w :
  reload_loop registry folder (pre ++ post) df_list w
  = match reload_loop registry folder pre df_list w with
    | (Ok df_list', w') => reload_loop registry folder post df_list' w'
    | (Raise e, w') => (Raise e, w')
    end.
Proof.
  revert df_list w.
  induction pre as [|file pre IH]; intros df_list w; simpl; [done|].
  destruct (Py.contains ".DS_Store" file); [apply IH|].
  unfold bind.
  destruct (_read_file _ w) as [[[df|]|e] w1]; simpl; try done.
  destruct (empty df); [apply IH|].
  destruct (detect_schema_from_df registry df) as [schema|].
  - destruct (normalizer schema) as [normalize|]; [|apply IH].
    unfold try_except, lift.
    destruct (normalize df); simpl; [apply IH|done].
  - unfold print. simpl. apply IH.
Qed.

(** A normalizer that raises ends the loop with its exception. *)
Lemma reload_loop_normalizer_raises
    registry folder file post df_list w df schema normalize e :
  Py.contains ".DS_Store" file = false →
  _read_file (folder +:+ "/" +:+ file) w = (Ok (Some df), w) →
  empty df = false →
  detect_schema_from_df registry df = Some schema →
  normalizer schema = Some normalize →
  normalize df = Raise e →
  reload_loop registry folder (file :: post) df_list w = (Raise e, w).
Proof.
  intros Hds Hread Hempty Hdetect Hnorm He. simpl. rewrite Hds.
  unfold bind at 1. rewrite Hread, Hempty, Hdetect, Hnorm.
  unfold try_except, lift, bind. by rewrite He.
Qed.

(** What [to_feather] leaves behind: the table when it returns, an empty
    file when it raises; nothing else changes. *)
Lemma to_feather_Ok p df w w' :
  to_feather p df w = (Ok (), w') →
  feather_files w' = <[p := Feather df]> (feather_files w) ∧
  text_files w' = text_files w ∧ stdout w' = stdout w.
Proof.
  unfold to_feather. destruct (if decide _ then _ else _); [|done].
  by intros [= <-].
Qed.


(** The run, step by step: the log is written first, and the cache is
    written only when the loop, the concatenation and the sort all
    succeed. *)
Lemma reload_from_source_cases registry folder files_list w :
  ∃ w0,
    _write_logged_filenames files_list w = (Ok (), w0) ∧
    feather_files w0 = feather_files w ∧
    match reload_loop registry folder files_list [] w0 with
    | (Ok df_list, w1) =>
        match concat df_list with
        | Ok cat =>
            match sort_values "Timestamp" cat with
            | Ok sorted =>
                let out := reset_index_drop (drop_duplicates sorted) in
                _reload_from_source registry folder files_list w
                = match to_feather "data.feather" out w1 with
                  | (Ok _, w2) => (Ok out, w2)
                  | (Raise e, w2) => (Raise e, w2)
                  end
            | Raise e =>
                _reload_from_source registry folder files_list w
                = (Raise e, w1)
            end
        | Raise e =>
            _reload_from_source registry folder files_list w = (Raise e, w1)
        end
    | (Raise e, w1) =>
        _reload_from_source registry folder files_list w = (Raise e, w1)
    end.
Proof.
  destruct (write_logged_filenames_ok files_list w) as (w0 & Hw0 & Hf & _).
  exists w0. split_and!; [done|done|].
  unfold _reload_from_source, bind, lift. rewrite Hw0.
  destruct (reload_loop registry folder files_list [] w0)
    as [[df_list|e] w1]; [|done].
  destruct (concat df_list) as [cat|e]; [|done].
  destruct (sort_values "Timestamp" cat) as [sorted|e]; [|done].
  simpl. by destruct (to_feather _ _ w1) as [[[]|e] w2].
Qed.

(** A run that raises has left the cache as it was, unless it is the write
    of the cache that raised, on the table that the run had made. *)
Lemma reload_raise_cache registry folder files_list w e w' :
  _reload_from_source registry folder files_list w = (Raise e, w') →
  feather_files w' = feather_files w ∨
  ∃ w0 df_list w1 cat sorted,
    _write_logged_filenames files_list w = (Ok (), w0) ∧
    reload_loop registry folder files_list [] w0 = (Ok df_list, w1) ∧
    concat df_list = Ok cat ∧
    sort_values "Timestamp" cat = Ok sorted ∧
    to_feather "data.feather" (reset_index_drop (drop_duplicates sorted)) w1
    = (Raise e, w') ∧
    feather_files w1 = feather_files w.
Proof.
  intros Hrun.
  destruct (reload_from_source_cases registry folder files_list w)
    as (w0 & Hw0 & Hf & Hcases).
  pose proof (reload_loop_feather registry folder files_list [] w0) as Hloop.
  destruct (reload_loop registry folder files_list [] w0)
    as [[df_list|e0] w1] eqn:Hrun_loop; simpl in Hloop.
  - destruct (concat df_list) as [cat|e1] eqn:Hcat.
    + destruct (sort_values "Timestamp" cat) as [sorted|e2] eqn:Hsort.
      * simpl in Hcases. rewrite Hcases in Hrun.
        destruct (to_feather _ _ w1) as [[[]|e3] w2] eqn:Hwrite; [done|].
        injection Hrun as -> ->. right.
        exists w0, df_list, w1, cat, sorted.
        split_and!; [done..|congruence].
      * rewrite Hcases in Hrun. injection Hrun as _ <-. left. congruence.
    + rewrite Hcases in Hrun. injection Hrun as _ <-. left. congruence.
  - rewrite Hcases in Hrun. injection Hrun as _ <-. left. congruence.
Qed.


(** The exception of a step before the write of the cache is the exception
    of the run, and the cache is as it was. *)
Lemma reload_loop_raises registry folder files_list w w0 e w1 :
  _write_logged_filenames files_list w = (Ok (), w0) →
  reload_loop registry folder files_list [] w0 = (Raise e, w1) →
  _reload_from_source registry folder files_list w = (Raise e, w1) ∧
  feather_files w1 = feather_files w.
Proof.
  intros Hw0 Hloop.
  destruct (reload_from_source_cases registry folder files_list w)
    as (w0' & Hw0' & Hf & Hcases).
  rewrite Hw0 in Hw0'. injection Hw0' as <-.
  pose proof (reload_loop_feather registry folder files_list [] w0) as Hc.
  rewrite Hloop in Hcases, Hc. split; [done|]. simpl in Hc. congruence.
Qed.

Lemma reload_concat_raises registry folder files_list w w0 df_list w1 e :
  _write_logged_filenames files_list w = (Ok (), w0) →
  reload_loop registry folder files_list [] w0 = (Ok df_list, w1) →
  concat df_list = Raise e →
  _reload_from_source registry folder files_list w = (Raise e, w1) ∧
  feather_files w1 = feather_files w.
Proof.
  intros Hw0 Hloop Hcat.
  destruct (reload_from_source_cases registry folder files_list w)
    as (w0' & Hw0' & Hf & Hcases).
  rewrite Hw0 in Hw0'. injection Hw0' as <-.
  pose proof (reload_loop_feather registry folder files_list [] w0) as Hc.
  rewrite Hloop in Hcases, Hc. rewrite Hcat in Hcases.
  split; [done|]. simpl in Hc. congruence.
Qed.

Lemma reload_sort_raises registry folder files_list w w0 df_list w1 cat e :
  _write_logged_filenames files_list w = (Ok (), w0) →
  reload_loop registry folder files_list [] w0 = (Ok df_list, w1) →
  concat df_list = Ok cat →
  sort_values "Timestamp" cat = Raise e →
  _reload_from_source registry folder files_list w = (Raise e, w1) ∧
  feather_files w1 = feather_files w.
Proof.
  intros Hw0 Hloop Hcat Hsort.
  destruct (reload_from_source_cases registry folder files_list w)
    as (w0' & Hw0' & Hf & Hcases).
  rewrite Hw0 in Hw0'. injection Hw0' as <-.
  pose proof (reload_loop_feather registry folder files_list [] w0) as Hc.
  rewrite Hloop in Hcases, Hc. rewrite Hcat, Hsort in Hcases.
  split; [done|]. simpl in Hc. congruence.
Qed.

(** The loop at one file: an exception of [_read_file], the [None] it
    returns for an unrecognized extension, and an exception of the
    normalizer each end the loop. *)
Lemma reload_loop_read_raises registry folder file post df_list w e w' :
  Py.contains ".DS_Store" file = false →
  _read_file (folder +:+ "/" +:+ file) w = (Raise e, w') →
  reload_loop registry folder (file :: post) df_list w = (Raise e, w').
Proof.
  intros Hds Hread. simpl. rewrite Hds. unfold bind. by rewrite Hread.
Qed.

Lemma reload_loop_read_None registry folder file post df_list w w' :
  Py.contains ".DS_Store" file = false →
  _read_file (folder +:+ "/" +:+ file) w = (Ok None, w') →
  reload_loop registry folder (file :: post) df_list w
  = (Raise AttributeError, w').
Proof.
  intros Hds Hread. simpl. rewrite Hds. unfold bind. by rewrite Hread.
Qed.

Lemma load_files_raise_cache registry folder w e w' :
  load_files registry folder w = (Raise e, w') →
  feather_files w' = feather_files w ∨
  ∃ out w1, to_feather "data.feather" out w1 = (Raise e, w') ∧
            feather_files w1 = feather_files w.
Proof.
  unfold load_files, bind at 1.
  destruct (os_listdir w folder) as [files_list|e0];
    [|intros [= _ <-]; by left].
  unfold bind at 1.
  destruct (detect_update_result files_list w) as (prev & _ & ->).
  unfold bind at 1, print. simpl. case_decide; simpl.
  - unfold read_feather. simpl.
    destruct (feather_files w !! "data.feather") as [[df|]|];
      [done|intros [= _ <-]; by left..].
  - intros [Hsame|(w0 & df_list & w1 & cat & sorted & _ & _ & _ & _
                   & Hwrite & Hw1)]%reload_raise_cache; [by left|].
    right. eauto.
Qed.

(** When the loop collects no table, the concatenation of the empty list
    raises. *)
Lemma reload_nothing_collected registry folder files_list w w0 w1 :
  _write_logged_filenames files_list w = (Ok (), w0) →
  reload_loop registry folder files_list [] w0 = (Ok [], w1) →
  _reload_from_source registry folder files_list w = (Raise ValueError, w1).
Proof.
  intros Hw0 Hloop.
  destruct (reload_from_source_cases registry folder files_list w)
    as (w0' & Hw0' & _ & Hcases).
  rewrite Hw0 in Hw0'. simplify_eq. by rewrite Hloop in Hcases.
Qed.

(** C2: on a folder that holds nothing but [.DS_Store], no table is
    collected and the run raises [ValueError] from the concatenation; it
    does not return an empty table. *)
Theorem reload_no_tables_raises registry folder w :
  ∃ w',
    _reload_from_source registry folder [".DS_Store"] w
    = (Raise ValueError, w') ∧
    feather_files w' = feather_files w.
Proof.
  destruct (write_logged_filenames_ok [".DS_Store"] w) as (w0 & Hw0 & Hf & _).
  exists w0. split; [|done].
  by apply (reload_nothing_collected _ _ _ _ w0).
Qed.

(** X20: every exception raised before the write of the cache is the
    exception of the run, and the cache is then as it was. This holds of
    an exception of [os.listdir], of [_read_file], of the [None] that
    [_read_file] returns for an unrecognized extension ([AttributeError]),
    of a normalizer, of the concatenation and of the sort. A run that
    raises otherwise has raised in the write of the cache itself. *)
Theorem fatal_error_keeps_cache registry folder files_list w w0 :
  _write_logged_filenames files_list w = (Ok (), w0) →
  (∀ e w', _reload_from_source registry folder files_list w = (Raise e, w') →
     feather_files w' = feather_files w ∨
     ∃ df_list w1 cat sorted,
       reload_loop registry folder files_list [] w0 = (Ok df_list, w1) ∧
       concat df_list = Ok cat ∧
       sort_values "Timestamp" cat = Ok sorted ∧
       to_feather "data.feather"
         (reset_index_drop (drop_duplicates sorted)) w1 = (Raise e, w')) ∧
  (∀ e w', load_files registry folder w = (Raise e, w') →
     feather_files w' = feather_files w ∨
     ∃ out w1, to_feather "data.feather" out w1 = (Raise e, w') ∧
               feather_files w1 = feather_files w) ∧
  (∀ e, os_listdir w folder = Raise e →
        load_files registry folder w = (Raise e, w)) ∧
  (∀ pre file post df_list w1,
     files_list = pre ++ file :: post →
     reload_loop registry folder pre [] w0 = (Ok df_list, w1) →
     Py.contains ".DS_Store" file = false →
     (∀ e w2,
        _read_file (folder +:+ "/" +:+ file) w1 = (Raise e, w2) →
        _reload_from_source registry folder files_list w = (Raise e, w2) ∧
        feather_files w2 = feather_files w) ∧
     (∀ w2,
        _read_file (folder +:+ "/" +:+ file) w1 = (Ok None, w2) →
        _reload_from_source registry folder files_list w
        = (Raise AttributeError, w2) ∧
        feather_files w2 = feather_files w) ∧
     (∀ df schema normalize e,
        _read_file (folder +:+ "/" +:+ file) w1 = (Ok (Some df), w1) →
        empty df = false →
        detect_schema_from_df registry df = Some schema →
        normalizer schema = Some normalize →
        normalize df = Raise e →
        _reload_from_source registry folder files_list w = (Raise e, w1) ∧
        feather_files w1 = feather_files w)) ∧
  (∀ df_list w1,
     reload_loop registry folder files_list [] w0 = (Ok df_list, w1) →
     (∀ e, concat df_list = Raise e →
           _reload_from_source registry folder files_list w = (Raise e, w1) ∧
           feather_files w1 = feather_files w) ∧
     (∀ cat e, concat df_list = Ok cat →
               sort_values "Timestamp" cat = Raise e →
               _reload_from_source registry folder files_list w
               = (Raise e, w1) ∧
               feather_files w1 = feather_files w)).
Proof.
  intros Hw0. split_and!.
  - intros e w' [?|(w0' & df_list & w1 & cat & sorted & Hw0' & Hloop & Hcat
                    & Hsort & Hwrite & _)]%reload_raise_cache; [by left|].
    rewrite Hw0 in Hw0'. injection Hw0' as <-. right.
    by exists df_list, w1, cat, sorted.
  - intros e w'. apply load_files_raise_cache.
  - intros e He. unfold load_files, bind. by rewrite He.
  - intros pre file post df_list w1 -> Hpre Hds. split_and!.
    + intros e w2 Hread. apply (reload_loop_raises _ _ _ _ w0); [done|].
      rewrite reload_loop_app, Hpre. by apply reload_loop_read_raises.
    + intros w2 Hread. apply (reload_loop_raises _ _ _ _ w0); [done|].
      rewrite reload_loop_app, Hpre. by apply reload_loop_read_None.
    + intros df schema normalize e Hread Hempty Hdetect Hnorm He.
      apply (reload_loop_raises _ _ _ _ w0); [done|].
      rewrite reload_loop_app, Hpre.
      by apply (reload_loop_normalizer_raises _ _ _ _ _ _ df schema normalize).
  - intros df_list w1 Hloop. split.
    + intros e Hcat. by apply (reload_concat_raises _ _ _ _ w0 df_list).
    + intros cat e Hcat Hsort.
      by apply (reload_sort_raises _ _ _ _ w0 df_list w1 cat).
Qed.

(** C5: the table that a successful run returns is the concatenation of
    the collected tables with its rows in ascending order of [Timestamp]
    (missing timestamps last), without two equal rows, and with every row
    of the concatenation still present: rows that share a timestamp and
    differ elsewhere are both kept. It is the table written to the
    cache. *)
Theorem ingestion_sorted_deduplicated registry folder files_list w out w' :
  _reload_from_source registry folder files_list w = (Ok out, w') →
  ∃ w0 w1 df_list cat pos,
    _write_logged_filenames files_list w = (Ok (), w0) ∧
    reload_loop registry folder files_list [] w0 = (Ok df_list, w1) ∧
    concat df_list = Ok cat ∧
    columns out = columns cat ∧
    get_loc "Timestamp" (columns out) = Ok pos ∧
    StronglySorted (λ v1 v2, key_le (cell_at pos v1) (cell_at pos v2))
      (values out) ∧
    NoDup (values out) ∧
    (∀ v, v ∈ values out ↔ v ∈ values cat) ∧
    (∀ v1 v2, v1 ∈ values cat → v2 ∈ values cat →
              cell_at pos v1 = cell_at pos v2 → v1 ≠ v2 →
              v1 ∈ values out ∧ v2 ∈ values out) ∧
    feather_files w' !! "data.feather" = Some (Feather out).
Proof.
  intros Hrun.
  destruct (reload_from_source_cases registry folder files_list w)
    as (w0 & Hw0 & _ & Hcases).
  destruct (reload_loop registry folder files_list [] w0)
    as [[df_list|e0] w1] eqn:Hloop; [|congruence].
  destruct (concat df_list) as [cat|e1] eqn:Hcat; [|congruence].
  destruct (sort_values "Timestamp" cat) as [sorted|e2] eqn:Hsort;
    [|congruence].
  simpl in Hcases. rewrite Hcases in Hrun.
  destruct (to_feather _ _ w1) as [[[]|e3] w2] eqn:Hwrite; [|done].
  injection Hrun as <- <-.
  apply to_feather_Ok in Hwrite as (Hcache & _ & _).
  destruct (sorted_deduplicated cat sorted Hsort)
    as (pos & Hpos & Hcols & Hsorted & Hnodup & Hin).
  exists w0, w1, df_list, cat, pos.
  split_and!; [done..| |].
  - intros v1 v2 Hv1 Hv2 _ _. by rewrite !Hin.
  - rewrite Hcache. apply lookup_insert_eq.
Qed.
End ingestion.

Lemma fatal_error_keeps_cache_witness :
  @_reload_from_source Scenario.libraries Scenario.registry "logs"
    ["a.csv"; "bad.csv"] Scenario.after_run
  = (Raise ValueError, Samples.logged_bad) ∧
  feather_files Samples.logged_bad = feather_files Scenario.after_run.
Proof.
  destruct (@fatal_error_keeps_cache Scenario.libraries Scenario.registry
              "logs" ["a.csv"; "bad.csv"] Scenario.after_run
              Samples.logged_bad)
    as (_ & _ & _ & Hfile & _); [vm_compute; reflexivity|].
  destruct (Hfile ["a.csv"] "bad.csv" [] Samples.collected_a
              Samples.logged_bad) as (_ & _ & Hnormalizer);
    [reflexivity|vm_compute; reflexivity|vm_compute; reflexivity|].
  apply (Hnormalizer Scenario.wide_bad
           (mkSchema "degas system control datalog" _schema_2_pred
              (Some (@_schema_2_normalize Scenario.libraries)))
           (@_schema_2_normalize Scenario.libraries) ValueError).
  - vm_compute; reflexivity.
  - vm_compute; reflexivity.
  - reflexivity.
  - reflexivity.
  - vm_compute; reflexivity.
Defined.

(** C4: when the write of the cache raises, here on a table with a
    repeated column label, the run raises and the cache, which held a
    table before, is left empty: the log is replaced through a temporary
    file, the cache is written in place. *)
Lemma cache_write_failure_empties_cache :
  ∃ cached w',
    feather_files Scenario.after_run !! "data.feather"
    = Some (Feather cached) ∧
    @_reload_from_source Samples.libraries_dup
      (@SCHEMA_REGISTRY Samples.libraries_dup) "logs" ["dup.csv"]
      Scenario.after_run
    = (Raise ValueError, w') ∧
    feather_files w' !! "data.feather" = Some Truncated ∧
    feather_files w' ≠ feather_files Scenario.after_run.
Proof.
  do 2 eexists. split; [vm_compute; reflexivity|].
  split; [vm_compute; reflexivity|].
  split; [vm_compute; reflexivity|].
  intros Heq. apply (f_equal (λ m, m !! "data.feather")) in Heq.
  vm_compute in Heq. discriminate.
Qed.

Lemma ingestion_sorted_deduplicated_witness :
  ∃ w',
    @_reload_from_source Scenario.libraries Scenario.registry "logs"
      Scenario.listing Scenario.fresh = (Ok Scenario.merged, w') ∧
    ∃ w0 w1 df_list cat pos,
      _write_logged_filenames Scenario.listing Scenario.fresh = (Ok (), w0) ∧
      @reload_loop Scenario.libraries Scenario.registry "logs"
        Scenario.listing [] w0 = (Ok df_list, w1) ∧
      concat df_list = Ok cat ∧
      columns Scenario.merged = columns cat ∧
      get_loc "Timestamp" (columns Scenario.merged) = Ok pos ∧
      StronglySorted (λ v1 v2, key_le (cell_at pos v1) (cell_at pos v2))
        (values Scenario.merged) ∧
      NoDup (values Scenario.merged) ∧
      (∀ v, v ∈ values Scenario.merged ↔ v ∈ values cat) ∧
      (∀ v1 v2, v1 ∈ values cat → v2 ∈ values cat →
                cell_at pos v1 = cell_at pos v2 → v1 ≠ v2 →
                v1 ∈ values Scenario.merged ∧ v2 ∈ values Scenario.merged) ∧
      feather_files w' !! "data.feather" = Some (Feather Scenario.merged).
Proof.
  eexists. split; [vm_compute; reflexivity|].
  apply (@ingestion_sorted_deduplicated Scenario.libraries).
  vm_compute; reflexivity.
Defined.

(** ** The two schemas of the registry *)

Section registry.
Context `{Libraries}.
Implicit Types (df : DataFrame).

(** X1: The long-form predicate looks at the first two column labels only: it
    answers true exactly on a table whose labels begin with [VarName],
    [TimeString]; it raises [IndexError] exactly on a table without columns
    and on one whose only column is [VarName]; it raises nothing else. *)
Theorem schema_1_pred_first_two_labels df :
  (_schema_1_pred df = Ok true
   ↔ ∃ rest, columns df = "VarName" :: "TimeString" :: rest) ∧
  (_schema_1_pred df = Raise IndexError
   ↔ columns df = [] ∨ columns df = ["VarName"]) ∧
  (∀ e, _schema_1_pred df = Raise e → e = IndexError).
Proof.
  unfold _schema_1_pred, columns_item.
  destruct (columns df) as [|c0 [|c1 rest]]; simpl.
  - split_and!.
    + split; [discriminate|]. intros [rest [=]].
    + split; [by left|done].
    + by intros e [= <-].
  - destruct (decide (c0 ≠ "VarName")) as [Hc0|Hc0]; simpl.
    + split_and!.
      * split; [discriminate|]. intros [rest [=]].
      * split; [discriminate|]. intros [[=]|[= ->]]. by destruct Hc0.
      * intros e [=].
    + split_and!.
      * split; [discriminate|]. intros [rest [=]].
      * split; [|done]. intros _. right. f_equal.
        by destruct (decide (c0 = "VarName")).
      * by intros e [= <-].
  - destruct (decide (c0 ≠ "VarName")) as [Hc0|Hc0]; simpl.
    + split_and!.
      * split; [discriminate|]. intros [rest' [= -> _ _]]. by destruct Hc0.
      * split; [discriminate|]. intros [[=]|[=]].
      * intros e [=].
    + destruct (decide (c1 ≠ "TimeString")) as [Hc1|Hc1]; simpl.
      * split_and!.
        -- split; [discriminate|]. intros [rest' [= _ -> _]]. by destruct Hc1.
        -- split; [discriminate|]. intros [[=]|[=]].
        -- intros e [=].
      * split_and!.
        -- split; [|done]. intros _. exists rest.
           destruct (decide (c0 = "VarName")) as [->|]; [|done].
           by destruct (decide (c1 = "TimeString")) as [->|].
        -- split; [discriminate|]. intros [[=]|[=]].
        -- intros e [=].
Qed.
End registry.


Section schema_2.
Context `{Libraries}.
Implicit Types (df : DataFrame) (s : string).

Lemma match_prefix_length ps s (rest : string) :
  Py.match_prefix ps s = Some rest →
  String.length s = (length ps + String.length rest)%nat.
Proof.
  revert s. induction ps as [|p ps IH]; intros s; simpl.
  - by intros [= ->].
  - destruct s as [|c s]; [done|].
    destruct (Py.pat_accepts p c); [|done].
    intros Hs%IH. simpl. by rewrite Hs.
Qed.

Lemma re_match_date_format_length s :
  Py.re_match date_format s = true →
  String.length s = 21%nat ∨ String.length s = 22%nat.
Proof.
  unfold Py.re_match.
  destruct (Py.match_prefix date_format s) as [rest|] eqn:Hm; [|done].
  apply match_prefix_length in Hm. intros Hrest%bool_decide_eq_true.
  destruct Hrest as [-> | ->]; simpl in Hm; [by left|by right].
Qed.

(** X2: The wide-form predicate answers true only on a table with one
    [Timestamp] column whose cell in the one row labelled 0 is a string that
    the date pattern matches, of 21 characters (22 with a final line feed).
    Its only exceptions are [KeyError] and [TypeError]; without exactly one
    [Timestamp] column it raises [KeyError]. *)
Theorem schema_2_pred_accepts df :
  (_schema_2_pred df = Ok true →
   ∃ i r s,
     get_loc "Timestamp" (columns df) = Ok i ∧
     filter (λ r, r.1 = CInt 0) (rows df) = [r] ∧
     cell_at i r.2 = CStr s ∧
     Py.re_match date_format s = true ∧
     (String.length s = 21%nat ∨ String.length s = 22%nat)) ∧
  ((∀ i, get_loc "Timestamp" (columns df) ≠ Ok i) →
   _schema_2_pred df = Raise KeyError) ∧
  (∀ e, _schema_2_pred df = Raise e → e = KeyError ∨ e = TypeError).
Proof.
  unfold _schema_2_pred, get_loc.
  destruct (positions "Timestamp" (columns df)) as [|i [|i' l]].
  - split_and!; [done| |]; [done|]. intros e [= <-]. by left.
  - destruct (filter _ (rows df)) as [|r [|r' rs]].
    + split_and!; [done| |].
      * intros Hno. by destruct (Hno i).
      * intros e [= <-]. by left.
    + destruct (cell_at i r.2) as [s| | |] eqn:Hcell.
      * destruct (Py.re_match date_format s) eqn:Hm; simpl.
        -- split_and!; [|intros Hno; by destruct (Hno i)|done].
           intros _. exists i, r, s. split_and!; [done..|].
           by apply re_match_date_format_length.
        -- split_and!; [done|intros Hno; by destruct (Hno i)|done].
      * split_and!; [done|intros Hno; by destruct (Hno i)|].
        intros e [= <-]. by right.
      * split_and!; [done|intros Hno; by destruct (Hno i)|].
        intros e [= <-]. by right.
      * split_and!; [done|intros Hno; by destruct (Hno i)|].
        intros e [= <-]. by right.
    + split_and!; [done|intros Hno; by destruct (Hno i)|].
      intros e [= <-]. by right.
  - split_and!; [done| |]; [done|]. intros e [= <-]. by left.
Qed.

Lemma schema_1_pred_true_iff df :
  _schema_1_pred df = Ok true
  ↔ ∃ rest, columns df = "VarName" :: "TimeString" :: rest.
Proof.
  unfold _schema_1_pred, columns_item.
  destruct (columns df) as [|c0 [|c1 rest]]; simpl.
  - split; [discriminate|]. intros [rest [=]].
  - destruct (decide (c0 ≠ "VarName")) as [Hc0|Hc0]; simpl;
      (split; [discriminate|]); intros [rest [=]].
  - destruct (decide (c0 ≠ "VarName")) as [Hc0|Hc0]; simpl.
    + split; [discriminate|]. intros [rest' [= -> _ _]]. by destruct Hc0.
    + destruct (decide (c1 ≠ "TimeString")) as [Hc1|Hc1]; simpl.
      * split; [discriminate|]. intros [rest' [= _ -> _]]. by destruct Hc1.
      * split; [|done]. intros _. exists rest.
        destruct (decide (c0 = "VarName")) as [->|]; [|done].
        by destruct (decide (c1 = "TimeString")) as [->|].
Qed.

(** X3: On the registry of the source, a table in long form is detected as the
    tagged export even when the wide-form predicate would accept it too;
    the wide-form schema is returned only for a table that is not in long
    form; and nothing is detected exactly when neither predicate answers
    true. Both schemas carry their normalizer. *)
Theorem detect_on_registry df :
  match detect_schema_from_df SCHEMA_REGISTRY df with
  | Some s =>
      (name s = "altasea iontech bl3t-25" ∧
       normalizer s = Some _schema_1_normalize ∧
       ∃ rest, columns df = "VarName" :: "TimeString" :: rest) ∨
      (name s = "degas system control datalog" ∧
       normalizer s = Some _schema_2_normalize ∧
       (¬ ∃ rest, columns df = "VarName" :: "TimeString" :: rest) ∧
       _schema_2_pred df = Ok true)
  | None =>
      (¬ ∃ rest, columns df = "VarName" :: "TimeString" :: rest) ∧
      _schema_2_pred df ≠ Ok true
  end.
Proof.
  unfold SCHEMA_REGISTRY. cbn [detect_schema_from_df predicate].
  pose proof (schema_1_pred_true_iff df) as H1.
  destruct (_schema_1_pred df) as [[]|e1].
  - left. split_and!; [done|done|]. by apply H1.
  - assert (¬ ∃ rest, columns df = "VarName" :: "TimeString" :: rest) as Hn.
    { intros Hl%H1. discriminate. }
    destruct (_schema_2_pred df) as [[]|e2]; [|done..].
    right. by split_and!.
  - assert (¬ ∃ rest, columns df = "VarName" :: "TimeString" :: rest) as Hn.
    { intros Hl%H1. discriminate. }
    destruct (_schema_2_pred df) as [[]|e2]; [|done..].
    right. by split_and!.
Qed.
End schema_2.


(** ** Column labels *)

Section labels.
Implicit Types (c label : string) (cols : list string) (i j : nat).

Lemma elem_of_positions_from i label cols j :
  j ∈ positions_from i label cols
  ↔ ∃ k, j = (i + k)%nat ∧ cols !! k = Some label.
Proof.
  revert i. induction cols as [|c cols IH]; intros i; simpl.
  - rewrite elem_of_nil. split; [done|]. by intros (k & _ & ?).
  - destruct (decide (c = label)) as [->|Hc].
    + rewrite elem_of_cons, IH. split.
      * intros [->|(k & -> & Hk)].
        -- exists 0%nat. split; [lia|done].
        -- exists (S k). split; [lia|done].
      * intros ([|k] & -> & Hk); [left; lia|].
        right. exists k. split; [lia|done].
    + rewrite IH. split.
      * intros (k & -> & Hk). exists (S k). split; [lia|done].
      * intros ([|k] & -> & Hk); simpl in Hk; [congruence|].
        exists k. split; [lia|done].
Qed.

Lemma positions_from_nil i label cols :
  positions_from i label cols = [] ↔ label ∉ cols.
Proof.
  rewrite list_elem_of_lookup. split.
  - intros Hnil [k Hk].
    assert ((i + k)%nat ∈ positions_from i label cols) as Hin
      by (apply elem_of_positions_from; eauto).
    rewrite Hnil in Hin. by apply elem_of_nil in Hin.
  - intros Hno. destruct (positions_from i label cols) as [|j l] eqn:Hp;
      [done|].
    assert (j ∈ positions_from i label cols) as Hin
      by (rewrite Hp; by left).
    apply elem_of_positions_from in Hin as (k & _ & Hk). destruct Hno. eauto.
Qed.

Lemma get_loc_KeyError label cols :
  get_loc label cols = Raise KeyError ↔ label ∉ cols.
Proof.
  rewrite <-(positions_from_nil 0). unfold get_loc, positions.
  by destruct (positions_from 0 label cols) as [|? [|? ?]].
Qed.

Lemma get_loc_Ok label cols i :
  get_loc label cols = Ok i → cols !! i = Some label.
Proof.
  unfold get_loc, positions.
  destruct (positions_from 0 label cols) as [|j [|? ?]] eqn:Hp; [done| |done].
  intros [= ->].
  assert (i ∈ positions_from 0 label cols) as Hin by (rewrite Hp; by left).
  by apply elem_of_positions_from in Hin as (k & -> & Hk).
Qed.

Lemma positions_from_head i label cols :
  label ∉ cols → positions_from i label (label :: cols) = [i].
Proof.
  intros Hno. simpl. rewrite decide_True by done.
  by apply (positions_from_nil (S i)) in Hno as ->.
Qed.

Lemma positions_from_NoDup i label cols :
  NoDup cols → label ∈ cols → ∃ j, positions_from i label cols = [j].
Proof.
  intros Hnd. revert i. induction Hnd as [|c cols Hc Hnd IH]; intros i Hin.
  - by apply elem_of_nil in Hin.
  - simpl. destruct (decide (c = label)) as [->|Hne].
    + apply (positions_from_nil (S i)) in Hc as ->. eauto.
    + apply elem_of_cons in Hin as [->|Hin]; [done|]. by apply IH.
Qed.

(** Distinct labels: a label that is present has one position. *)
Lemma get_loc_NoDup label cols :
  NoDup cols → label ∈ cols → ∃ i, get_loc label cols = Ok i.
Proof.
  intros Hnd Hin. unfold get_loc, positions.
  destruct (positions_from_NoDup 0 label cols Hnd Hin) as [j ->]. eauto.
Qed.
End labels.


(** ** The long-form normalizer *)

Section long_form.
Context `{Libraries}.
Implicit Types (df out : DataFrame) (l : list cell).

Lemma mapM_as_str l names :
  exc_mapM as_str l = Ok names → l = CStr <$> names.
Proof.
  revert names. induction l as [|c l IH]; intros names; simpl.
  - by intros [= <-].
  - destruct c as [s| | |]; simpl; try done.
    destruct (exc_mapM as_str l) as [names'|]; simpl; [|done].
    intros [= <-]. by rewrite (IH names').
Qed.

Lemma elem_of_sorted_unique (t : string) (ts : list string) :
  t ∈ sorted_unique ts ↔ t ∈ ts.
Proof.
  unfold sorted_unique. by rewrite merge_sort_Permutation, elem_of_remove_dups.
Qed.



(** Renaming with the table of the source maps no label onto a raw
    identifier, onto the placeholder or onto [Timestamp]. *)
Lemma iontech_names_value c v :
  iontech_names !! c = Some v →
  iontech_names !! v = None ∧ v ≠ "$RT_DIS$" ∧ v ≠ "Timestamp".
Proof.
  intros Hin%elem_of_list_to_map_2.
  repeat (apply elem_of_cons in Hin as [[= -> ->]|Hin];
          [split_and!; [by vm_compute|discriminate|discriminate]|]).
  by apply elem_of_nil in Hin.
Qed.

Lemma renamed_not_key c : iontech_names !! renamed c = None.
Proof.
  unfold renamed. destruct (iontech_names !! c) as [v|] eqn:Hc; simpl; [|done].
  by apply iontech_names_value in Hc as (? & _).
Qed.

Lemma renamed_placeholder c : renamed c = "$RT_DIS$" ↔ c = "$RT_DIS$".
Proof.
  unfold renamed. split.
  - destruct (iontech_names !! c) as [v|] eqn:Hc; simpl; [|done].
    apply iontech_names_value in Hc as (_ & Hv & _). by intros ->.
  - by intros ->.
Qed.

Lemma renamed_timestamp c : renamed c = "Timestamp" ↔ c = "Timestamp".
Proof.
  unfold renamed. split.
  - destruct (iontech_names !! c) as [v|] eqn:Hc; simpl; [|done].
    apply iontech_names_value in Hc as (_ & _ & Hv). by intros ->.
  - by intros ->.
Qed.

(** What a successful [pivot] has computed. *)
Lemma pivot_Ok index columns_ values_ df p :
  pivot index columns_ values_ df = Ok p →
  ∃ i c v times names,
    get_loc index (columns df) = Ok i ∧
    get_loc columns_ (columns df) = Ok c ∧
    get_loc values_ (columns df) = Ok v ∧
    column i df = CStr <$> times ∧
    column c df = CStr <$> names ∧
    NoDup (zip times names) ∧
    p = {| columns := sorted_unique names;
           rows := (λ t, (CStr t,
                          (λ n, lookup_entry t n
                                  (zip (zip times names) (column v df)))
                          <$> sorted_unique names))
                   <$> sorted_unique times |}.
Proof.
  unfold pivot.
  destruct (get_loc index (columns df)) as [i|]; simpl; [|done].
  destruct (get_loc columns_ (columns df)) as [c|]; simpl; [|done].
  destruct (get_loc values_ (columns df)) as [v|]; simpl; [|done].
  destruct (exc_mapM as_str (column i df)) as [times|] eqn:Ht; simpl; [|done].
  destruct (exc_mapM as_str (column c df)) as [names|] eqn:Hn; simpl; [|done].
  destruct (decide (NoDup (zip times names))) as [Hnd|]; simpl; [|done].
  intros [= <-]. exists i, c, v, times, names.
  split_and!; [done|done|done|by apply mapM_as_str|by apply mapM_as_str
               |done|done].
Qed.

(** What a successful [pivot_iontech] has computed. *)
Lemma pivot_iontech_Ok df out :
  pivot_iontech df = Ok out →
  ∃ i c v times names,
    get_loc "TimeString" (columns df) = Ok i ∧
    get_loc "VarName" (columns df) = Ok c ∧
    get_loc "VarValue" (columns df) = Ok v ∧
    column i df = CStr <$> times ∧
    column c df = CStr <$> names ∧
    NoDup (zip times names) ∧
    ("$RT_DIS$" ∈ names) ∧
    ("Timestamp" ∉ names) ∧
    columns out
    = ("Timestamp" :: filter (λ c, c ∉ ["$RT_DIS$"])
                        (renamed <$> sorted_unique names)) ∧
    column 0 out = CStr <$> sorted_unique times ∧
    labels out
    = (λ k, CInt (Z.of_nat k)) <$> seq 0 (length (sorted_unique times)).
Proof.
  unfold pivot_iontech.
  destruct (pivot "TimeString" "VarName" "VarValue" df) as [p|] eqn:Hp;
    simpl; [|done].
  apply pivot_Ok in Hp
    as (i & c & v & times & names & Hi & Hc & Hv & Htimes & Hnames & Hnd & ->).
  unfold drop. simpl.
  destruct (decide (Forall _ ["$RT_DIS$"])) as [Hdrop|]; simpl; [|done].
  unfold reset_index. simpl.
  destruct (decide ("Timestamp" ∈ _)) as [|Hts]; simpl; [done|].
  intros [= <-]. exists i, c, v, times, names.
  apply Forall_singleton, list_elem_of_fmap in Hdrop as (n & Hn' & Hin).
  split_and!; [done|done|done|done|done|done| | |done| |].
  - assert (renamed n = "$RT_DIS$") as Hr by (symmetry; exact Hn').
    apply (proj1 (renamed_placeholder n)) in Hr. subst n.
    by apply elem_of_sorted_unique.
  - intros Hin'. apply Hts. apply list_elem_of_filter. split.
    + rewrite elem_of_cons, elem_of_nil. by intros [[=]|[]].
    + apply list_elem_of_fmap. exists "Timestamp". split; [done|].
      by apply elem_of_sorted_unique.
  - unfold column, values. simpl. rewrite values_range_index.
    rewrite <-!list_fmap_compose. apply list_fmap_ext. by intros _ t _.
  - unfold labels. simpl. rewrite labels_range_index.
    by rewrite !length_fmap.
Qed.

Lemma pivot_iontech_columns df out :
  pivot_iontech df = Ok out →
  ∃ cols,
    columns out = ("Timestamp" :: cols) ∧
    ("Timestamp" ∉ cols) ∧
    ("$RT_DIS$" ∉ cols) ∧
    Forall (λ c, iontech_names !! c = None) cols.
Proof.
  intros (i & c & v & times & names & _ & _ & _ & _ & _ & _ & _ & Hts
          & Hcols & _)%pivot_iontech_Ok.
  eexists. split_and!; [done|..].
  - rewrite list_elem_of_filter, list_elem_of_fmap.
    intros (_ & n & Hn%eq_sym & Hin).
    apply (proj1 (renamed_timestamp n)) in Hn. subst n.
    apply Hts. by apply elem_of_sorted_unique.
  - rewrite list_elem_of_filter. intros (Hno & _). apply Hno. by left.
  - apply Forall_forall. intros n (_ & Hin)%list_elem_of_filter.
    apply list_elem_of_fmap in Hin as (n' & -> & _). apply renamed_not_key.
Qed.

End long_form.


Section normalizer_failures.
Context `{Libraries}.
Implicit Types (df out : DataFrame).

(** X5: Every table that a normalizer of the registry returns has exactly one
    [Timestamp] column: the first one after the long-form normalizer, the
    one of the input after the wide-form normalizer, whose labels are
    unchanged. *)
Theorem normalized_has_one_timestamp df out :
  (_schema_1_normalize df = Ok out →
   get_loc "Timestamp" (columns out) = Ok 0%nat) ∧
  (_schema_2_normalize df = Ok out →
   columns out = columns df ∧
   ∃ pos, get_loc "Timestamp" (columns out) = Ok pos).
Proof.
  split.
  - unfold _schema_1_normalize.
    destruct (pivot_iontech df) as [p|] eqn:Hp; simpl; [|done].
    destruct (pivot_iontech_columns df p Hp) as (cols & Hcols & Hts & _).
    assert (get_loc "Timestamp" (columns p) = Ok 0%nat) as Hloc.
    { rewrite Hcols. unfold get_loc, positions.
      by rewrite positions_from_head. }
    rewrite Hloc. simpl.
    destruct (pd_to_datetime (column 0 p)); simpl; [|done].
    by intros [= <-].
  - unfold _schema_2_normalize.
    destruct (get_loc "Timestamp" (columns df)) as [pos|] eqn:Hpos; simpl;
      [|done].
    destruct (pd_to_datetime (column pos df)); simpl; [|done].
    intros [= <-]. simpl. eauto.
Qed.
End normalizer_failures.

Section normalizer_errors.
Context `{Libraries}.
Implicit Types (df out : DataFrame).

Lemma get_loc_unique label cols i j :
  get_loc label cols = Ok i → get_loc label cols = Ok j → i = j.
Proof. by intros -> [=]. Qed.

(** X6: A long-form table in which no row carries the placeholder variable
    [$RT_DIS$] is never normalized: the normalizer raises, and when the
    pivot itself succeeds the exception is the [KeyError] of the drop. *)
Theorem schema_1_normalize_needs_placeholder df c :
  get_loc "VarName" (columns df) = Ok c →
  CStr "$RT_DIS$" ∉ column c df →
  ∃ e, _schema_1_normalize df = Raise e ∧
       (∀ p, pivot "TimeString" "VarName" "VarValue" df = Ok p →
             e = KeyError).
Proof.
  intros Hc Hno. unfold _schema_1_normalize, pivot_iontech.
  destruct (pivot "TimeString" "VarName" "VarValue" df) as [p|e] eqn:Hp;
    simpl; [|by exists e].
  exists KeyError. split; [|done].
  apply pivot_Ok in Hp
    as (i & c' & v & times & names & _ & Hc' & _ & _ & Hnames & _ & ->).
  rewrite (get_loc_unique _ _ _ _ Hc' Hc) in Hnames.
  unfold drop. simpl.
  rewrite decide_False; [done|].
  intros (n & Hn & Hin)%Forall_singleton%list_elem_of_fmap.
  assert (renamed n = "$RT_DIS$") as Hr by (symmetry; exact Hn).
  apply (proj1 (renamed_placeholder n)) in Hr. subst n.
  apply (proj1 (elem_of_sorted_unique _ _)) in Hin. apply Hno.
  rewrite Hnames. by apply (list_elem_of_fmap_2 CStr).
Qed.

(** X7: The long-form predicate accepts a table on its first two labels alone;
    when its labels are distinct and none is [VarValue], detection on the
    registry returns the long-form schema and its normalizer raises
    [KeyError]. *)
Theorem detected_without_values_column df rest :
  columns df = "VarName" :: "TimeString" :: rest →
  NoDup (columns df) →
  "VarValue" ∉ rest →
  ∃ s normalize,
    detect_schema_from_df SCHEMA_REGISTRY df = Some s ∧
    normalizer s = Some normalize ∧
    normalize df = Raise KeyError.
Proof.
  intros Hcols Hnd Hno.
  assert (_schema_1_pred df = Ok true) as Hpred.
  { apply schema_1_pred_true_iff. eauto. }
  eexists _, _. split_and!.
  - unfold SCHEMA_REGISTRY. cbn [detect_schema_from_df predicate].
    by rewrite Hpred.
  - done.
  - unfold _schema_1_normalize, pivot_iontech, pivot.
    destruct (get_loc_NoDup "TimeString" (columns df) Hnd) as [i ->].
    { rewrite Hcols. apply elem_of_cons. right. by left. }
    destruct (get_loc_NoDup "VarName" (columns df) Hnd) as [c ->].
    { rewrite Hcols. by left. }
    assert (get_loc "VarValue" (columns df) = Raise KeyError) as ->; [|done].
    apply get_loc_KeyError. rewrite Hcols, !elem_of_cons.
    by intros [[=]|[[=]|?]].
Qed.

(** X8: Two rows of a long-form table with the same time and the same variable
    make the normalizer raise [ValueError], whatever their values. *)
Theorem schema_1_normalize_duplicate_pair df i c v k1 k2 r1 r2 t n :
  get_loc "TimeString" (columns df) = Ok i →
  get_loc "VarName" (columns df) = Ok c →
  get_loc "VarValue" (columns df) = Ok v →
  Forall (λ r, ∃ s, cell_at i r = CStr s) (values df) →
  Forall (λ r, ∃ s, cell_at c r = CStr s) (values df) →
  k1 ≠ k2 →
  values df !! k1 = Some r1 →
  values df !! k2 = Some r2 →
  cell_at i r1 = CStr t → cell_at c r1 = CStr n →
  cell_at i r2 = CStr t → cell_at c r2 = CStr n →
  _schema_1_normalize df = Raise ValueError.
Proof.
  intros Hi Hc Hv Htext_i Htext_c Hk Hr1 Hr2 Ht1 Hn1 Ht2 Hn2.
  assert (∀ j l, Forall (λ r, ∃ s, cell_at j r = CStr s) l →
                 ∃ ss, exc_mapM as_str (cell_at j <$> l) = Ok ss ∧
                       cell_at j <$> l = CStr <$> ss) as Htext.
  { intros j l Hl.
    assert (∃ ss, exc_mapM as_str (cell_at j <$> l) = Ok ss) as [ss Hss].
    { induction Hl as [|r l [s Hs] _ [ss IH]]; [by exists []|].
      exists (s :: ss). rewrite fmap_cons. cbn [exc_mapM].
      by rewrite Hs, IH. }
    exists ss. split; [done|]. by apply mapM_as_str. }
  destruct (Htext i _ Htext_i) as (times & Ht & Ht').
  destruct (Htext c _ Htext_c) as (names & Hn & Hn').
  unfold _schema_1_normalize, pivot_iontech, pivot.
  rewrite Hi, Hc, Hv. simpl. unfold column. rewrite Ht, Hn. simpl.
  rewrite decide_False; [done|].
  intros Hnd. apply Hk.
  assert (∀ k r, values df !! k = Some r → cell_at i r = CStr t →
                 cell_at c r = CStr n → zip times names !! k = Some (t, n))
    as Hzip.
  { intros k r Hr Hti Hni.
    assert (times !! k = Some t) as Htk.
    { apply (f_equal (λ l, l !! k)) in Ht'.
      rewrite !list_lookup_fmap, Hr in Ht'. simpl in Ht'. rewrite Hti in Ht'.
      destruct (times !! k); by simplify_eq/=. }
    assert (names !! k = Some n) as Hnk.
    { apply (f_equal (λ l, l !! k)) in Hn'.
      rewrite !list_lookup_fmap, Hr in Hn'. simpl in Hn'. rewrite Hni in Hn'.
      destruct (names !! k); by simplify_eq/=. }
    apply lookup_zip_with_Some. eauto. }
  eapply NoDup_lookup; [done|by eapply Hzip..].
Qed.
End normalizer_errors.


Section reshape.
Context `{Libraries}.
Implicit Types (df out : DataFrame).

Lemma lookup_entry_NoDup (entries : list (string * string * cell)) k t n x :
  NoDup entries.*1 →
  entries !! k = Some (t, n, x) →
  lookup_entry t n entries = x.
Proof.
  revert k. induction entries as [|[[t' n'] x'] entries IH]; intros k Hnd Hk;
    [done|].
  apply NoDup_cons in Hnd as [Hhd Hnd]. simpl.
  destruct (decide (t' = t ∧ n' = n)) as [[-> ->]|Hne].
  - destruct k as [|k]; [by injection Hk|].
    destruct Hhd. simpl in Hk. apply list_elem_of_fmap.
    exists (t, n, x). split; [done|]. by eapply list_elem_of_lookup_2.
  - destruct k as [|k]; [|by eapply IH].
    injection Hk as -> -> ->. by destruct Hne.
Qed.

(** Dropping the columns that [P] rejects moves a kept cell together with
    its label. *)
Lemma select_filter_lookup (P : string → Prop) `{∀ c, Decision (P c)}
    (cols : list string) (row : list cell) b0 c x :
  cols !! b0 = Some c → P c → row !! b0 = Some x →
  ∃ b, filter P cols !! b = Some c ∧
       select ((λ c, bool_decide (P c)) <$> cols) row !! b = Some x.
Proof.
  revert row b0. induction cols as [|c0 cols IH]; intros row b0 Hc HP Hx;
    [done|].
  destruct row as [|x0 row]; [done|].
  destruct b0 as [|b0].
  - injection Hc as ->. injection Hx as ->. exists 0%nat.
    rewrite filter_cons_True by done. simpl.
    by rewrite bool_decide_eq_true_2.
  - destruct (IH row b0 Hc HP Hx) as (b & Hb & Hb').
    destruct (decide (P c0)) as [HP0|HP0].
    + exists (S b). rewrite filter_cons_True by done. simpl.
      by rewrite bool_decide_eq_true_2.
    + exists b. rewrite filter_cons_False by done. simpl.
      by rewrite bool_decide_eq_false_2.
Qed.

(** X9: Every measurement of a tagged export with text keys, other than the
    placeholder, is found in the table that [pivot_iontech] returns: the
    row that carries the time of the measurement under [Timestamp] holds
    its value under the label of its variable. This is stated of a value
    that a conversion to [float64] leaves as it is: any text, and any
    number up to 2^53 in magnitude. *)
Theorem pivot_iontech_keeps_measurements df out i c v k row t n :
  pivot_iontech df = Ok out →
  get_loc "TimeString" (columns df) = Ok i →
  get_loc "VarName" (columns df) = Ok c →
  get_loc "VarValue" (columns df) = Ok v →
  values df !! k = Some row →
  cell_at i row = CStr t →
  cell_at c row = CStr n →
  n ≠ "$RT_DIS$" →
  float_exact (cell_at v row) →
  ∃ a b orow,
    values out !! a = Some orow ∧
    orow !! 0%nat = Some (CStr t) ∧
    columns out !! b = Some (renamed n) ∧
    orow !! b = Some (cell_at v row).
Proof.
  intros Hout Hi Hc Hv Hrow Ht Hn Hph _. unfold pivot_iontech in Hout.
  destruct (pivot "TimeString" "VarName" "VarValue" df) as [p|] eqn:Hp;
    simpl in Hout; [|done].
  apply pivot_Ok in Hp
    as (i' & c' & v' & times & names & Hi' & Hc' & Hv' & Htimes & Hnames
        & Hnd & ->).
  rewrite Hi in Hi'. rewrite Hc in Hc'. rewrite Hv in Hv'.
  injection Hi' as <-. injection Hc' as <-. injection Hv' as <-.
  assert (times !! k = Some t) as Htk.
  { apply (f_equal (λ l, l !! k)) in Htimes. unfold column in Htimes.
    rewrite !list_lookup_fmap, Hrow in Htimes. simpl in Htimes.
    rewrite Ht in Htimes. destruct (times !! k); by simplify_eq/=. }
  assert (names !! k = Some n) as Hnk.
  { apply (f_equal (λ l, l !! k)) in Hnames. unfold column in Hnames.
    rewrite !list_lookup_fmap, Hrow in Hnames. simpl in Hnames.
    rewrite Hn in Hnames. destruct (names !! k); by simplify_eq/=. }
  assert (column v df !! k = Some (cell_at v row)) as Hxk.
  { unfold column. by rewrite list_lookup_fmap, Hrow. }
  set (entries := zip (zip times names) (column v df)) in *.
  assert (lookup_entry t n entries = cell_at v row) as Hentry.
  { apply (lookup_entry_NoDup _ k).
    - unfold entries. rewrite fst_zip; [done|].
      rewrite length_zip_with.
      apply (f_equal length) in Htimes. unfold column in Htimes |- *.
      rewrite !length_fmap in Htimes. rewrite length_fmap. lia.
    - unfold entries. apply lookup_zip_with_Some.
      exists (t, n), (cell_at v row). split_and!; [done| |done].
      apply lookup_zip_with_Some. eauto. }
  assert (t ∈ sorted_unique times) as [a Ha]%list_elem_of_lookup_1.
  { apply elem_of_sorted_unique. by eapply list_elem_of_lookup_2. }
  assert (n ∈ sorted_unique names) as [b0 Hb0]%list_elem_of_lookup_1.
  { apply elem_of_sorted_unique. by eapply list_elem_of_lookup_2. }
  unfold drop in Hout. simpl in Hout.
  destruct (decide (Forall _ ["$RT_DIS$"])) as [_|]; simpl in Hout; [|done].
  unfold reset_index in Hout. simpl in Hout.
  destruct (decide ("Timestamp" ∈ _)) as [|_]; simpl in Hout; [done|].
  injection Hout as <-.
  destruct (select_filter_lookup (λ c, c ∉ ["$RT_DIS$"])
              (renamed <$> sorted_unique names)
              ((λ n', lookup_entry t n' entries) <$> sorted_unique names)
              b0 (renamed n) (cell_at v row)) as (b & Hb & Hb').
  { by rewrite list_lookup_fmap, Hb0. }
  { rewrite elem_of_cons, elem_of_nil. intros [Hr|[]].
    by apply (proj1 (renamed_placeholder n)) in Hr. }
  { by rewrite list_lookup_fmap, Hb0, <-Hentry. }
  eexists a, (S b), _. unfold values. simpl. rewrite values_range_index.
  split_and!.
  - rewrite !list_lookup_fmap, Ha. simpl. done.
  - done.
  - simpl. exact Hb.
  - simpl. exact Hb'.
Qed.
End reshape.


(** ** Concatenation *)

Section concatenation.
Implicit Types (df cat : DataFrame) (frames : list DataFrame) (c : string).

Lemma elem_of_union_columns_from (acc : list string) frames c :
  c ∈ foldl (λ acc df, acc ++ filter (λ c, c ∉ acc) (columns df)) acc frames
  ↔ c ∈ acc ∨ ∃ df, df ∈ frames ∧ c ∈ columns df.
Proof.
  revert acc. induction frames as [|df frames IH]; intros acc; simpl.
  - split; [by left|]. intros [?|(df & Hdf & _)]; [done|].
    by apply elem_of_nil in Hdf.
  - rewrite IH, elem_of_app, list_elem_of_filter. split.
    + intros [[?|[_ ?]]|(df' & Hdf' & ?)]; [by left| |].
      * right. exists df. split; [by left|done].
      * right. exists df'. split; [by right|done].
    + intros [?|(df' & Hdf' & Hc)]; [by left; left|].
      apply elem_of_cons in Hdf' as [->|Hdf'].
      * left. destruct (decide (c ∈ acc)); [by left|by right].
      * right. eauto.
Qed.

Lemma elem_of_union_columns frames c :
  c ∈ union_columns frames ↔ ∃ df, df ∈ frames ∧ c ∈ columns df.
Proof.
  unfold union_columns. rewrite elem_of_union_columns_from, elem_of_nil.
  split; [by intros [[]|?]|by right].
Qed.

Lemma NoDup_union_columns_from (acc : list string) frames :
  NoDup acc →
  Forall (λ df, NoDup (columns df)) frames →
  NoDup (foldl (λ acc df, acc ++ filter (λ c, c ∉ acc) (columns df))
           acc frames).
Proof.
  intros Hacc Hframes. revert acc Hacc.
  induction Hframes as [|df frames Hdf _ IH]; intros acc Hacc; [done|].
  simpl. apply IH. apply NoDup_app. split_and!; [done| |].
  - intros c Hc (Hno & _)%list_elem_of_filter. by apply Hno.
  - by apply NoDup_filter.
Qed.

Lemma length_bind_rows frames (f : DataFrame → list (cell * list cell)) :
  (∀ df, length (f df) = length (rows df)) →
  length (frames ≫= f) = sum_list_with (λ df, length (rows df)) frames.
Proof.
  intros Hf. induction frames as [|df frames IH]; [done|].
  rewrite bind_cons, length_app, Hf, IH. done.
Qed.

Lemma concat_Ok frames cat :
  concat frames = Ok cat →
  length (rows cat) = sum_list_with (λ df, length (rows df)) frames ∧
  (∀ c, c ∈ columns cat ↔ ∃ df, df ∈ frames ∧ c ∈ columns df) ∧
  (Forall (λ df, NoDup (columns df)) frames → NoDup (columns cat)) ∧
  (∀ r', r' ∈ rows cat →
     ∃ df r,
       df ∈ frames ∧ r ∈ rows df ∧ r'.1 = r.1 ∧
       ∀ j c, columns cat !! j = Some c →
         (∃ i, columns df !! i = Some c ∧ cell_at j r'.2 = cell_at i r.2) ∨
         ((c ∉ columns df) ∧ cell_at j r'.2 = CNaN)).
Proof.
  unfold concat. destruct frames as [|df0 rest] eqn:Hframes; [done|].
  assert (df0 ∈ frames) as Hdf0 by (rewrite Hframes; by left).
  assert (Forall (λ df, NoDup (columns df)) frames → NoDup (columns df0))
    as Hhead by (rewrite Hframes; by intros [? _]%Forall_cons).
  rewrite <-Hframes. clear Hframes rest.
  destruct (decide (Forall (λ df', columns df' = columns df0) frames))
    as [Hsame|_].
  - intros [= <-]. cbn [columns rows]. rewrite Forall_forall in Hsame.
    split_and!.
    + by apply length_bind_rows.
    + intros c. split.
      * intros Hc. by exists df0.
      * intros (df & Hdf & Hc). by rewrite <-(Hsame df Hdf).
    + done.
    + intros r' (df & Hr' & Hdf)%list_elem_of_bind.
      exists df, r'. split_and!; [done|done|done|].
      intros j c Hj. left. exists j. by rewrite (Hsame df Hdf).
  - destruct (decide (Forall (λ df', NoDup (columns df')) frames))
      as [Hnd|_]; [|done].
    intros [= <-]. cbn [columns rows]. split_and!.
    + apply length_bind_rows. intros df. unfold reindex.
      by rewrite length_fmap.
    + apply elem_of_union_columns.
    + intros _. unfold union_columns.
      apply NoDup_union_columns_from; [constructor|done].
    + intros r' (df & Hr' & Hdf)%list_elem_of_bind.
      unfold reindex in Hr'.
      apply list_elem_of_fmap in Hr' as (r & -> & Hr).
      exists df, r. split_and!; [done|done|done|].
      intros j c Hj. cbn [snd].
      set (f := λ c0, match positions c0 (columns df) with
                      | i :: _ => cell_at i r.2
                      | [] => CNaN
                      end).
      assert (cell_at j (f <$> union_columns frames) = f c) as ->.
      { unfold cell_at. by rewrite list_lookup_fmap, Hj. }
      unfold f. destruct (positions c (columns df)) as [|i l] eqn:Hpos.
      * right. split; [|done]. by apply (positions_from_nil 0).
      * left. exists i. split; [|done].
        assert (i ∈ positions_from 0 c (columns df)) as Hin.
        { unfold positions in Hpos. rewrite Hpos. by left. }
        by apply elem_of_positions_from in Hin as (k & -> & Hk).
Qed.

End concatenation.


(** ** The loop over the listing *)

Section listing.
Context `{Libraries}.
Implicit Types (registry : list Schema) (folder file : string).
Implicit Types (files_list : list string) (df_list : list DataFrame).
Implicit Types (w : World).

(** X11: Names that contain [.DS_Store] take no part in a run: the loop over a
    listing collects the same tables, prints the same lines and raises the
    same exception as the loop over the listing without those names. *)
Theorem reload_loop_skips_ds_store registry folder files_list df_list w :
  reload_loop registry folder files_list df_list w
  = reload_loop registry folder
      (filter (λ file, Py.contains ".DS_Store" file = false) files_list)
      df_list w.
Proof.
  revert df_list w.
  induction files_list as [|file files_list IH]; intros df_list w; [done|].
  destruct (Py.contains ".DS_Store" file) eqn:Hds.
  - rewrite filter_cons_False by (by rewrite Hds).
    simpl. rewrite Hds. apply IH.
  - rewrite filter_cons_True by done. simpl. rewrite Hds.
    unfold bind. destruct (_read_file _ w) as [[[df|]|e] w1]; [|done..].
    destruct (empty df); [apply IH|].
    destruct (detect_schema_from_df registry df) as [schema|].
    + destruct (normalizer schema) as [normalize|]; [|apply IH].
      destruct (try_except _ _ w1) as [[df'|e] w2]; [apply IH|done].
    + destruct (print _ w1) as [[[]|e] w2]; [apply IH|done].
Qed.

Lemma read_logged_filenames_text w w' :
  text_files w' = text_files w →
  (_read_logged_filenames w').1 = (_read_logged_filenames w).1.
Proof.
  intros Htext. unfold _read_logged_filenames. rewrite Htext.
  by destruct (text_files w !! FILENAME_LOG).
Qed.

Lemma load_files_unchanged registry folder w files_list :
  os_listdir w folder = Ok files_list →
  _read_logged_filenames w = (Ok files_list, w) →
  load_files registry folder w
  = (match feather_files w !! "data.feather" with
     | Some (Feather df) => Ok df
     | Some Truncated => Raise (OtherError "ArrowInvalid")
     | None => Raise FileNotFoundError
     end,
     {| text_files := text_files w; feather_files := feather_files w;
        stdout := stdout w ++ ["No change, reading from feather..."] |}).
Proof.
  intros Hls Hlog. unfold load_files, bind at 1. rewrite Hls.
  unfold bind at 1, _detect_update, bind at 1. rewrite Hlog.
  rewrite decide_True by done. unfold ret, bind, print, read_feather.
  cbn [text_files feather_files stdout].
  by destruct (feather_files w !! "data.feather") as [[df|]|].
Qed.

(** X13: The fast path: when the listing of the folder is the one read from the
    log, [load_files] returns the cached table without touching a file; it
    prints one line. Without a cache it raises [FileNotFoundError], as on
    the first call over an empty folder, and on a cache that a failed
    write left empty it raises [ArrowInvalid]. *)
Theorem load_files_fast_path registry folder w files_list :
  os_listdir w folder = Ok files_list →
  _read_logged_filenames w = (Ok files_list, w) →
  load_files registry folder w
  = (match feather_files w !! "data.feather" with
     | Some (Feather df) => Ok df
     | Some Truncated => Raise (OtherError "ArrowInvalid")
     | None => Raise FileNotFoundError
     end,
     {| text_files := text_files w; feather_files := feather_files w;
        stdout := stdout w ++ ["No change, reading from feather..."] |}).
Proof. apply load_files_unchanged. Qed.
End listing.


(** ** White space at the ends of a logged name *)

Section stripping.
Implicit Types (s y z acc : string) (c : ascii).

Lemma rev_app_append s acc : String.rev_app s acc = String.rev s +:+ acc.
Proof.
  unfold String.rev. revert acc.
  induction s as [|c s IH]; intros acc; [done|]. simpl.
  rewrite (IH (String c "")), IH. by rewrite append_assoc.
Qed.

Lemma rev_cons c s : String.rev (String c s) = String.rev s +:+ String c "".
Proof. unfold String.rev at 1. simpl. apply rev_app_append. Qed.

Lemma rev_append y z : String.rev (y +:+ z) = String.rev z +:+ String.rev y.
Proof.
  induction y as [|c y IH]; [by rewrite append_empty_r|].
  rewrite append_cons, !rev_cons, IH. by rewrite append_assoc.
Qed.

Lemma rev_involutive s : String.rev (String.rev s) = s.
Proof.
  induction s as [|c s IH]; [done|].
  rewrite rev_cons, rev_append, IH. done.
Qed.

Lemma lstrip_idemp s : Py.lstrip (Py.lstrip s) = Py.lstrip s.
Proof.
  induction s as [|c s IH]; [done|]. simpl.
  destruct (Py.isspace c) eqn:Hc; [done|]. simpl. by rewrite Hc.
Qed.

Lemma rstrip_idemp s : Py.rstrip (Py.rstrip s) = Py.rstrip s.
Proof. unfold Py.rstrip. by rewrite rev_involutive, lstrip_idemp. Qed.

Lemma lstrip_snoc y c :
  Py.isspace c = false →
  ∃ z, Py.lstrip (y +:+ String c "") = z +:+ String c "".
Proof.
  intros Hc. induction y as [|d y IH].
  - exists "". simpl. by rewrite Hc.
  - rewrite append_cons. simpl. destruct (Py.isspace d); [done|].
    by exists (String d y).
Qed.

(** Stripping the right end leaves a stripped left end in place. *)
Lemma lstrip_rstrip_lstrip s :
  Py.lstrip (Py.rstrip (Py.lstrip s)) = Py.rstrip (Py.lstrip s).
Proof.
  assert (∀ u, Py.lstrip u = u → Py.lstrip (Py.rstrip u) = Py.rstrip u)
    as Hu; [|apply Hu, lstrip_idemp].
  intros [|c u] Hfix; [done|].
  assert (Py.isspace c = false) as Hc.
  { destruct (Py.isspace c) eqn:Hc; [|done]. simpl in Hfix.
    rewrite Hc in Hfix.
    assert (String.length (Py.lstrip u) ≤ String.length u)%nat as Hlen.
    { clear. induction u as [|d u IH]; simpl; [done|].
      destruct (Py.isspace d); simpl; lia. }
    rewrite Hfix in Hlen. simpl in Hlen. lia. }
  unfold Py.rstrip. rewrite rev_cons.
  destruct (lstrip_snoc (String.rev u) c Hc) as [z ->].
  rewrite rev_append. simpl. change (String.rev (String c "")) with (String c "").
  simpl. by rewrite Hc.
Qed.

Lemma strip_idemp s : Py.strip (Py.strip s) = Py.strip s.
Proof.
  unfold Py.strip. by rewrite lstrip_rstrip_lstrip, rstrip_idemp.
Qed.
End stripping.

Section line_boundaries.
Implicit Types (s line a b : string) (c : ascii).

Lemma no_line_boundary_append a b :
  Py.no_line_boundary (a +:+ b)
  = Py.no_line_boundary a && Py.no_line_boundary b.
Proof.
  induction a as [|c a IH]; [done|]. rewrite append_cons. simpl.
  by rewrite IH, andb_assoc.
Qed.

Lemma no_line_boundary_rev s :
  Py.no_line_boundary (String.rev s) = Py.no_line_boundary s.
Proof.
  induction s as [|c s IH]; [done|].
  rewrite rev_cons, no_line_boundary_append, IH. simpl.
  rewrite andb_true_r. apply andb_comm.
Qed.

Lemma no_line_boundary_lstrip s :
  Py.no_line_boundary s = true → Py.no_line_boundary (Py.lstrip s) = true.
Proof.
  induction s as [|c s IH]; [done|]. simpl.
  destruct (Py.isspace c); [|done].
  intros [_ Hs]%andb_true_iff. by apply IH.
Qed.

Lemma no_line_boundary_strip s :
  Py.no_line_boundary s = true → Py.no_line_boundary (Py.strip s) = true.
Proof.
  intros Hs. unfold Py.strip, Py.rstrip. rewrite no_line_boundary_rev.
  apply no_line_boundary_lstrip. rewrite no_line_boundary_rev.
  by apply no_line_boundary_lstrip.
Qed.

(** No line that [splitlines] yields holds a line boundary. *)
Lemma splitlines_from_no_boundary after_cr line s :
  Py.no_line_boundary line = true →
  Forall (λ l, Py.no_line_boundary l = true)
    (Py.splitlines_from after_cr line s).
Proof.
  revert after_cr line.
  induction s as [|c s IH]; intros after_cr line Hline; simpl.
  - case_decide; [done|]. by apply Forall_singleton.
  - destruct (after_cr && bool_decide (c = Py.LF)); [by apply IH|].
    destruct (Py.is_line_boundary c) eqn:Hc.
    + apply Forall_cons. split; [done|]. by apply IH.
    + apply IH. rewrite no_line_boundary_append, Hline. simpl.
      by rewrite Hc.
Qed.
End line_boundaries.

Section unloggable_names.
Context `{Libraries}.
Implicit Types (files_list prev : list string) (w : World).

(** Every name read from the log is non-empty, on one line and without
    white space at either end, whatever the log holds. *)
Lemma read_logged_filenames_plain w prev :
  _read_logged_filenames w = (Ok prev, w) → Forall Py.plain_name prev.
Proof.
  unfold _read_logged_filenames.
  destruct (text_files w !! FILENAME_LOG) as [text|];
    intros [= <-]; [|done].
  apply Forall_forall.
  intros n (line & -> & [Hne Hline]%list_elem_of_filter)%list_elem_of_fmap.
  split_and!; [done| |apply strip_idemp].
  apply no_line_boundary_strip.
  pose proof (splitlines_from_no_boundary false "" text eq_refl) as Hall.
  by apply (proj1 (Forall_forall _ _) Hall).
Qed.

(** X14: A folder that holds a file whose name a log line does not carry
    unchanged (the name is empty, holds a line boundary, or begins or ends
    with white space) counts as changed on every call, whatever was logged
    before: no such name is ever read back from the log. *)
Theorem unloggable_name_always_changed files_list w n :
  n ∈ files_list → ¬ Py.plain_name n →
  ∃ message, _detect_update files_list w = (Ok (true, message), w).
Proof.
  intros Hn Hpad.
  destruct (detect_update_result files_list w) as (prev & Hprev & ->).
  case_decide as Heq; [|eauto]. subst prev. destruct Hpad.
  apply read_logged_filenames_plain in Hprev.
  by apply (proj1 (Forall_forall _ _) Hprev).
Qed.
End unloggable_names.

(** ** A second call *)

Section second_call.
Context `{Libraries}.
Implicit Types (registry : list Schema) (folder : string).
Implicit Types (files_list : list string) (w : World) (out : DataFrame).

Lemma read_logged_filenames_content files_list w :
  Forall Py.plain_name files_list →
  text_files w !! FILENAME_LOG
  = Some (Py.join (String Py.LF "") files_list +:+ String Py.LF "") →
  _read_logged_filenames w = (Ok files_list, w).
Proof.
  intros Hplain Hlog. unfold _read_logged_filenames. rewrite Hlog.
  do 2 f_equal. destruct files_list as [|x l]; [done|].
  rewrite splitlines_join
    by (eapply Forall_impl; [done|]; by intros s (_ & ? & _)).
  by apply strip_plain_names.
Qed.

(** X15: The log read back after [_write_logged_filenames] is the listing that
    was written exactly when every name of the listing is one that a log
    line carries unchanged: not empty, on one line, and without white space
    at either end. *)
Theorem logged_filenames_read_back files_list w :
  ∃ w0,
    _write_logged_filenames files_list w = (Ok (), w0) ∧
    (_read_logged_filenames w0 = (Ok files_list, w0)
     ↔ Forall Py.plain_name files_list).
Proof.
  destruct (write_logged_filenames_ok files_list w) as (w0 & Hw0 & _ & Hlog).
  exists w0. split; [done|]. split.
  - apply read_logged_filenames_plain.
  - intros Hplain. by apply read_logged_filenames_content.
Qed.

(** What a call that returns a table leaves behind: the cache holds the
    table returned, and the log reads back as the listing, for names that
    a log line carries unchanged. *)
Lemma load_files_Ok_state registry folder w files_list out w1 :
  os_listdir w folder = Ok files_list →
  Forall Py.plain_name files_list →
  load_files registry folder w = (Ok out, w1) →
  feather_files w1 !! "data.feather" = Some (Feather out) ∧
  _read_logged_filenames w1 = (Ok files_list, w1).
Proof.
  intros Hls Hplain. unfold load_files, bind at 1. rewrite Hls.
  unfold bind at 1.
  destruct (detect_update_result files_list w) as (prev & Hprev & ->).
  case_decide as Heq.
  - subst prev. unfold bind, print, read_feather.
    cbn [text_files feather_files stdout].
    destruct (feather_files w !! "data.feather") as [[df|]|] eqn:Hdf;
      [|done..].
    intros [= <- <-]. split; [done|].
    unfold _read_logged_filenames in *. cbn [text_files].
    destruct (text_files w !! FILENAME_LOG); by simplify_eq.
  - unfold bind at 1, print. set (wp := mkWorld _ _ _).
    intros Hrun.
    destruct (reload_from_source_cases registry folder files_list wp)
      as (w0 & Hw0 & _ & Hcases).
    destruct (write_logged_filenames_ok files_list wp)
      as (w0' & Hw0' & _ & Hlog).
    rewrite Hw0 in Hw0'. injection Hw0' as <-.
    pose proof (reload_loop_text_files registry folder files_list [] w0)
      as Hloop.
    destruct (reload_loop registry folder files_list [] w0)
      as [[df_list|e0] w2]; simpl in Hloop;
      [|rewrite Hcases in Hrun; discriminate].
    destruct (concat df_list) as [cat|e1];
      [|rewrite Hcases in Hrun; discriminate].
    destruct (sort_values "Timestamp" cat) as [sorted|e2];
      [|rewrite Hcases in Hrun; discriminate].
    simpl in Hcases. rewrite Hcases in Hrun.
    destruct (to_feather _ _ w2) as [[[]|e3] w3] eqn:Hwrite; [|done].
    injection Hrun as <- <-.
    apply to_feather_Ok in Hwrite as (Hcache & Htext & _).
    split; [rewrite Hcache; apply lookup_insert_eq|].
    apply read_logged_filenames_content; [done|].
    by rewrite Htext, Hloop.
Qed.

(** X16: Calling [load_files] again over an unchanged folder returns the same
    table from the cache: after a call that returned a table, a second
    call that sees the same listing returns that table, prints one line
    and writes nothing. The names of the listing must be such that a log
    line carries them unchanged. *)
Theorem load_files_again registry folder w files_list out w1 :
  os_listdir w folder = Ok files_list →
  Forall Py.plain_name files_list →
  load_files registry folder w = (Ok out, w1) →
  os_listdir w1 folder = Ok files_list →
  load_files registry folder w1
  = (Ok out,
     {| text_files := text_files w1; feather_files := feather_files w1;
        stdout := stdout w1 ++ ["No change, reading from feather..."] |}).
Proof.
  intros Hls Hplain Hrun Hls1.
  destruct (load_files_Ok_state _ _ _ _ _ _ Hls Hplain Hrun)
    as [Hcache Hlog].
  rewrite (load_files_unchanged _ _ _ _ Hls1 Hlog). by rewrite Hcache.
Qed.
End second_call.


(** ** The tables a run collects *)

Section collected.
Context `{Libraries}.
Implicit Types (registry : list Schema) (folder file : string).
Implicit Types (files_list : list string) (df_list : list DataFrame).
Implicit Types (w : World) (df out cat : DataFrame).

Lemma detect_schema_from_df_Some registry df schema :
  detect_schema_from_df registry df = Some schema →
  schema ∈ registry ∧ predicate schema df = Ok true.
Proof.
  induction registry as [|s registry IH]; [done|]. simpl.
  destruct (predicate s df) as [[]|] eqn:Hs.
  - intros [= <-]. split; [by left|done].
  - intros [? ?]%IH. split; [by right|done].
  - intros [? ?]%IH. split; [by right|done].
Qed.

(** An invariant of the loop: a property that holds of every table a
    normalizer of the registry returns, and of every table matched by a
    schema without normalizer, holds of every table collected. *)
Lemma reload_loop_invariant (P : DataFrame → Prop)
    registry folder files_list df_list w out_list w' :
  (∀ schema normalize df out,
     schema ∈ registry → normalizer schema = Some normalize →
     normalize df = Ok out → P out) →
  (∀ schema df,
     schema ∈ registry → normalizer schema = None →
     predicate schema df = Ok true → P df) →
  Forall P df_list →
  reload_loop registry folder files_list df_list w = (Ok out_list, w') →
  Forall P out_list.
Proof.
  intros Hnorm Hraw. revert df_list w.
  induction files_list as [|file files_list IH]; intros df_list w Hacc.
  - by intros [= <- _].
  - simpl. destruct (Py.contains ".DS_Store" file); [by apply IH|].
    unfold bind.
    destruct (_read_file _ w) as [[[df|]|e] w1]; [|done..].
    destruct (empty df); [by apply IH|].
    destruct (detect_schema_from_df registry df) as [schema|] eqn:Hdetect.
    + apply detect_schema_from_df_Some in Hdetect as [Hin Hpred].
      destruct (normalizer schema) as [normalize|] eqn:Hn.
      * unfold try_except, lift, raise.
        destruct (normalize df) as [out|e] eqn:Hout; [|done].
        apply IH, Forall_app. split; [done|].
        apply Forall_singleton. by apply (Hnorm schema normalize df).
      * apply IH, Forall_app. split; [done|].
        apply Forall_singleton. by apply (Hraw schema).
    + unfold print. by apply IH.
Qed.

Lemma registry_normalized_timestamp schema normalize df out :
  schema ∈ SCHEMA_REGISTRY → normalizer schema = Some normalize →
  normalize df = Ok out →
  ∃ pos, get_loc "Timestamp" (columns out) = Ok pos.
Proof.
  unfold SCHEMA_REGISTRY.
  intros [->|[->|[]%elem_of_nil]%elem_of_cons]%elem_of_cons [= <-].
  - unfold _schema_1_normalize.
    destruct (pivot_iontech df) as [p|] eqn:Hp; simpl; [|done].
    destruct (pivot_iontech_columns df p Hp) as (cols & Hcols & Hts & _).
    assert (get_loc "Timestamp" (columns p) = Ok 0%nat) as Hloc.
    { rewrite Hcols. unfold get_loc, positions.
      by rewrite positions_from_head. }
    rewrite Hloc. simpl.
    destruct (pd_to_datetime (column 0 p)); simpl; [|done].
    intros [= <-]. eauto.
  - unfold _schema_2_normalize.
    destruct (get_loc "Timestamp" (columns df)) as [pos|] eqn:Hpos; simpl;
      [|done].
    destruct (pd_to_datetime (column pos df)); simpl; [|done].
    intros [= <-]. simpl. eauto.
Qed.

(** X17: With the registry of the source, every table collected by the loop has
    exactly one [Timestamp] column, and so has their concatenation: the
    sort by [Timestamp] never fails for a missing or repeated key, it can
    only raise [TypeError], on timestamps of more than one type. *)
Theorem merged_table_has_timestamp folder files_list w df_list w' :
  reload_loop SCHEMA_REGISTRY folder files_list [] w = (Ok df_list, w') →
  Forall (λ df, ∃ pos, get_loc "Timestamp" (columns df) = Ok pos) df_list ∧
  ∀ cat, concat df_list = Ok cat →
    (∃ pos, get_loc "Timestamp" (columns cat) = Ok pos) ∧
    (∀ e, sort_values "Timestamp" cat = Raise e → e = TypeError).
Proof.
  intros Hloop.
  assert (Forall (λ df, ∃ pos, get_loc "Timestamp" (columns df) = Ok pos)
            df_list) as Hall.
  { eapply reload_loop_invariant; [| |by apply Forall_nil|done].
    - intros schema normalize df out. apply registry_normalized_timestamp.
    - unfold SCHEMA_REGISTRY. intros schema df
        [->|[->|[]%elem_of_nil]%elem_of_cons]%elem_of_cons; discriminate. }
  split; [done|]. intros cat Hcat.
  assert (∃ pos, get_loc "Timestamp" (columns cat) = Ok pos) as [pos Hpos].
  { unfold concat in Hcat. destruct df_list as [|df0 frames] eqn:Hframes;
      [done|]. rewrite <-Hframes in *.
    destruct (decide (Forall _ df_list)) as [Hsame|Hdiff].
    - injection Hcat as <-. cbn [columns].
      rewrite Hframes in Hall. by apply Forall_cons in Hall as [? _].
    - destruct (decide (Forall _ df_list)) as [Hnd|]; [|done].
      injection Hcat as <-. cbn [columns].
      apply get_loc_NoDup.
      + by apply NoDup_union_columns_from; [constructor|].
      + apply elem_of_union_columns. exists df0.
        split; [rewrite Hframes; by left|].
        rewrite Hframes in Hall. apply Forall_cons in Hall as [[p Hp] _].
        apply get_loc_Ok in Hp. by eapply list_elem_of_lookup_2. }
  split; [eauto|]. intros e. unfold sort_values. rewrite Hpos. simpl.
  destruct (comparable (column pos cat)); [done|]. by intros [= <-].
Qed.
End collected.


(** ** Where the rows of the result come from *)

Section provenance.
Context `{Libraries}.
Implicit Types (registry : list Schema) (folder : string).
Implicit Types (files_list : list string) (df_list : list DataFrame).
Implicit Types (w : World) (out : DataFrame).

(** X18: The table that a run returns, in terms of the tables collected from
    the files: at least one table was collected; the columns are exactly
    the labels that occur in a collected table; the index is 0, 1, 2, ...;
    there are at most as many rows as in the collected tables together;
    and every row comes from a row of a collected table laid out on these
    columns: it holds the missing value under each label that its table
    lacks, and under the others the cell of that row, for every cell that
    a conversion to [float64] leaves as it is. *)
Theorem reload_output_provenance registry folder files_list w out w' :
  _reload_from_source registry folder files_list w = (Ok out, w') →
  ∃ w0 w1 df_list,
    _write_logged_filenames files_list w = (Ok (), w0) ∧
    reload_loop registry folder files_list [] w0 = (Ok df_list, w1) ∧
    df_list ≠ [] ∧
    (∀ c, c ∈ columns out ↔ ∃ df, df ∈ df_list ∧ c ∈ columns df) ∧
    labels out = (λ k, CInt (Z.of_nat k)) <$> seq 0 (length (rows out)) ∧
    (length (rows out)
     ≤ sum_list_with (λ df, length (rows df)) df_list)%nat ∧
    (∀ v, v ∈ values out →
       ∃ df r,
         df ∈ df_list ∧ r ∈ rows df ∧
         ∀ j c, columns out !! j = Some c →
           (∃ i, columns df !! i = Some c ∧
                 (float_exact (cell_at i r.2) →
                  cell_at j v = cell_at i r.2)) ∨
           ((c ∉ columns df) ∧ cell_at j v = CNaN)).
Proof.
  intros Hrun.
  destruct (reload_from_source_cases registry folder files_list w)
    as (w0 & Hw0 & _ & Hcases).
  destruct (reload_loop registry folder files_list [] w0)
    as [[df_list|e0] w1] eqn:Hloop; [|congruence].
  destruct (concat df_list) as [cat|e1] eqn:Hcat; [|congruence].
  destruct (sort_values "Timestamp" cat) as [sorted|e2] eqn:Hsort;
    [|congruence].
  simpl in Hcases. rewrite Hcases in Hrun.
  destruct (to_feather _ _ w1) as [[[]|e3] w2]; [|done].
  injection Hrun as <- <-.
  destruct (sorted_deduplicated cat sorted Hsort)
    as (pos & _ & Hcols & _ & _ & Hin).
  destruct (concat_Ok df_list cat Hcat) as (Hlen & Hlabels & _ & Hrows).
  apply sort_values_ok in Hsort as (_ & _ & _ & Hperm & _).
  exists w0, w1, df_list. split_and!; [done|done|..].
  - by intros ->.
  - intros c. rewrite Hcols. apply Hlabels.
  - unfold labels. cbn [rows reset_index_drop].
    rewrite labels_range_index. unfold range_index.
    by rewrite length_imap.
  - cbn [rows reset_index_drop]. unfold range_index, values.
    rewrite length_imap, length_fmap. cbn [rows drop_duplicates].
    rewrite <-Hlen, <-Hperm. apply sublist_length, drop_seen_sublist.
  - intros v (r' & -> & Hr')%(proj1 (Hin v))%list_elem_of_fmap.
    destruct (Hrows r' Hr') as (df & r & Hdf & Hr & _ & Hcells).
    exists df, r. split_and!; [done|done|].
    intros j c. rewrite Hcols.
    intros [(i & Hi & Hcell)|?]%Hcells; [left|by right]. eauto.
Qed.
End provenance.


(** ** After a run that failed *)

Section after_failure.
Context `{Libraries}.
Implicit Types (registry : list Schema) (folder : string).
Implicit Types (files_list : list string) (w : World).

End after_failure.


(** ** The properties on the sample folder *)


Lemma schema_1_normalize_needs_placeholder_witness :
  ∃ e,
    @_schema_1_normalize Scenario.libraries Samples.no_placeholder = Raise e ∧
    (∀ p, pivot "TimeString" "VarName" "VarValue" Samples.no_placeholder
          = Ok p → e = KeyError).
Proof.
  apply (@schema_1_normalize_needs_placeholder Scenario.libraries
           Samples.no_placeholder 0).
  - vm_compute; reflexivity.
  - apply (bool_decide_unpack _). vm_compute; reflexivity.
Defined.

Lemma detected_without_values_column_witness :
  ∃ s normalize,
    detect_schema_from_df (@SCHEMA_REGISTRY Scenario.libraries)
      Samples.no_values = Some s ∧
    normalizer s = Some normalize ∧
    normalize Samples.no_values = Raise KeyError.
Proof.
  apply (@detected_without_values_column Scenario.libraries
           Samples.no_values ["Value"]).
  - reflexivity.
  - apply (bool_decide_unpack _). vm_compute; reflexivity.
  - apply (bool_decide_unpack _). vm_compute; reflexivity.
Defined.

Lemma schema_1_normalize_duplicate_pair_witness :
  @_schema_1_normalize Scenario.libraries Samples.repeated = Raise ValueError.
Proof.
  apply (@schema_1_normalize_duplicate_pair Scenario.libraries
           Samples.repeated 1 0 2 0 1
           [CStr "X"; CStr Scenario.ts1; CInt 1]
           [CStr "X"; CStr Scenario.ts1; CInt 2] Scenario.ts1 "X").
  - vm_compute; reflexivity.
  - vm_compute; reflexivity.
  - vm_compute; reflexivity.
  - repeat (constructor; [eexists; vm_compute; reflexivity|]). constructor.
  - repeat (constructor; [eexists; vm_compute; reflexivity|]). constructor.
  - lia.
  - reflexivity.
  - reflexivity.
  - reflexivity.
  - reflexivity.
  - reflexivity.
  - reflexivity.
Defined.

Lemma pivot_iontech_keeps_measurements_witness :
  ∃ a b orow,
    values Samples.pivoted !! a = Some orow ∧
    orow !! 0%nat = Some (CStr Scenario.ts2) ∧
    columns Samples.pivoted !! b
    = Some (renamed "Analog_PC_HFK101_UI.Analog_out") ∧
    orow !! b = Some (CInt 80).
Proof.
  apply (pivot_iontech_keeps_measurements Samples.tagged Samples.pivoted
           1 0 2 2
           [CStr "Analog_PC_HFK101_UI.Analog_out"; CStr Scenario.ts2; CInt 80]
           Scenario.ts2 "Analog_PC_HFK101_UI.Analog_out").
  - vm_compute; reflexivity.
  - vm_compute; reflexivity.
  - vm_compute; reflexivity.
  - vm_compute; reflexivity.
  - reflexivity.
  - reflexivity.
  - reflexivity.
  - discriminate.
  - cbn. lia.
Defined.

Lemma load_files_fast_path_witness :
  @load_files Scenario.libraries Scenario.registry "logs" Samples.loaded
  = (match feather_files Samples.loaded !! "data.feather" with
     | Some (Feather df) => Ok df
     | Some Truncated => Raise (OtherError "ArrowInvalid")
     | None => Raise FileNotFoundError
     end,
     {| text_files := text_files Samples.loaded;
        feather_files := feather_files Samples.loaded;
        stdout := stdout Samples.loaded
                  ++ ["No change, reading from feather..."] |}).
Proof.
  apply (@load_files_fast_path Scenario.libraries Scenario.registry "logs"
           Samples.loaded Scenario.listing).
  - vm_compute; reflexivity.
  - vm_compute; reflexivity.
Defined.

Lemma unloggable_name_always_changed_witness :
  ∃ message,
    @_detect_update Scenario.libraries ["a.csv"; " b.csv"] Scenario.after_run
    = (Ok (true, message), Scenario.after_run).
Proof.
  apply (@unloggable_name_always_changed Scenario.libraries
           ["a.csv"; " b.csv"] Scenario.after_run " b.csv").
  - apply (bool_decide_unpack _). vm_compute; reflexivity.
  - intros (_ & _ & Hstrip). vm_compute in Hstrip. discriminate.
Defined.

Lemma load_files_again_witness :
  @load_files Scenario.libraries Scenario.registry "logs" Samples.loaded
  = (Ok Scenario.merged,
     {| text_files := text_files Samples.loaded;
        feather_files := feather_files Samples.loaded;
        stdout := stdout Samples.loaded
                  ++ ["No change, reading from feather..."] |}).
Proof.
  apply (@load_files_again Scenario.libraries Scenario.registry "logs"
           Scenario.fresh Scenario.listing Scenario.merged Samples.loaded).
  - vm_compute; reflexivity.
  - repeat (constructor;
            [split_and!; [discriminate|vm_compute; reflexivity..]|]).
    constructor.
  - vm_compute; reflexivity.
  - vm_compute; reflexivity.
Defined.

Lemma merged_table_has_timestamp_witness :
  Forall (λ df, ∃ pos, get_loc "Timestamp" (columns df) = Ok pos)
    Samples.collected ∧
  ∀ cat, concat Samples.collected = Ok cat →
    (∃ pos, get_loc "Timestamp" (columns cat) = Ok pos) ∧
    (∀ e, sort_values "Timestamp" cat = Raise e → e = TypeError).
Proof.
  apply (@merged_table_has_timestamp Scenario.libraries "logs"
           Scenario.listing Scenario.fresh Samples.collected
           {| text_files := ∅; feather_files := ∅;
              stdout := ["Failed to match notes.csv"] |}).
  vm_compute; reflexivity.
Defined.

Lemma reload_output_provenance_witness :
  ∃ w0 w1 df_list,
    _write_logged_filenames Scenario.listing Scenario.fresh = (Ok (), w0) ∧
    @reload_loop Scenario.libraries Scenario.registry "logs"
      Scenario.listing [] w0 = (Ok df_list, w1) ∧
    df_list ≠ [] ∧
    (∀ c, c ∈ columns Scenario.merged
          ↔ ∃ df, df ∈ df_list ∧ c ∈ columns df) ∧
    labels Scenario.merged
    = (λ k : nat, CInt (Z.of_nat k))
      <$> seq 0 (length (rows Scenario.merged)) ∧
    (length (rows Scenario.merged)
     ≤ sum_list_with (λ df, length (rows df)) df_list)%nat ∧
    (∀ v, v ∈ values Scenario.merged →
       ∃ df r,
         df ∈ df_list ∧ r ∈ rows df ∧
         ∀ j c, columns Scenario.merged !! j = Some c →
           (∃ i, columns df !! i = Some c ∧
                 (float_exact (cell_at i r.2) →
                  cell_at j v = cell_at i r.2)) ∨
           ((c ∉ columns df) ∧ cell_at j v = CNaN)).
Proof.
  apply (@reload_output_provenance Scenario.libraries Scenario.registry
           "logs" Scenario.listing Scenario.fresh Scenario.merged
           Samples.loaded_from_source).
  vm_compute; reflexivity.
Defined.

